(** * APS calculator: the presentation layer, embedded and verified

    A shallow embedding of the TypeScript front end of the APS calculator
    ([src/types.ts], [src/App.tsx], [src/components/Sidebar.tsx] and
    [src/components/Results.tsx]) together with the properties its
    specification states about it.

    Conventions of the embedding.

    - A JavaScript [number] is a value of [number] below: NaN, the two
      infinities, or a finite value carried as an exact rational.  The
      comparison operators, [Math.min], [Math.max], [Math.abs], [isNaN],
      truthiness and [toFixed] follow ECMAScript on these four shapes.
      Rounding of binary64 arithmetic is not represented: a product such as
      [d.mu * 100] is the exact product.
    - A [SimulationResult] reaches the front end as JSON through the
      invocation boundary; JSON has no encoding of NaN or of an infinity, so
      the numeric fields of a [SimulationPoint] are finite and are carried
      as [Q].  Numbers typed by the user go through [parseFloat] or
      [parseInt] and can be NaN; they are carried as [number].
    - React state is passed explicitly.  A handler closes over the state of
      the render that created it and returns the updater it hands to
      [setState]; [fire] runs a handler in the state that rendered it.
    - [handleSimulate] is asynchronous and fallible; it is written in a
      small state-and-exception monad over the component state of [App]. *)

From Stdlib Require Import ZArith QArith Qabs Bool List String Ascii Lia.
From Stdlib Require Import DecimalString.
Import ListNotations.

Local Open Scope string_scope.
Local Open Scope Z_scope.
Local Open Scope Q_scope.

(* ================================================================== *)
(** * JavaScript numbers *)
(* ================================================================== *)

Module JS.

Inductive number : Type :=
| NaN : number
| Infinity (negative : bool) : number
| Fin (q : Q) : number.

Definition Qltb (a b : Q) : bool := negb (Qle_bool b a).

(** [x < y]; false as soon as one side is NaN. *)
Definition ltb (x y : number) : bool :=
  match x, y with
  | NaN, _ | _, NaN => false
  | Fin a, Fin b => Qltb a b
  | Infinity true, Infinity true => false
  | Infinity true, _ => true
  | _, Infinity true => false
  | Infinity false, _ => false
  | Fin _, Infinity false => true
  end.

(** [x <= y]; false as soon as one side is NaN. *)
Definition leb (x y : number) : bool :=
  match x, y with
  | NaN, _ | _, NaN => false
  | _, _ => negb (ltb y x)
  end.

Definition gtb (x y : number) : bool := ltb y x.
Definition geb (x y : number) : bool := leb y x.

Definition isNaN (x : number) : bool :=
  match x with NaN => true | _ => false end.

Definition Qsign_neg (q : Q) : bool := (Qnum q <? 0)%Z.
Definition Qis_zero (q : Q) : bool := (Qnum q =? 0)%Z.

(** [x * y]. *)
Definition mul (x y : number) : number :=
  match x, y with
  | NaN, _ | _, NaN => NaN
  | Fin a, Fin b => Fin (a * b)
  | Infinity s, Infinity t => Infinity (xorb s t)
  | Infinity s, Fin b =>
      if Qis_zero b then NaN else Infinity (xorb s (Qsign_neg b))
  | Fin a, Infinity t =>
      if Qis_zero a then NaN else Infinity (xorb (Qsign_neg a) t)
  end.

(** [Math.abs(x)]. *)
Definition Math_abs (x : number) : number :=
  match x with
  | NaN => NaN
  | Infinity _ => Infinity false
  | Fin q => Fin (Qabs q)
  end.

(** One step of [Math.min]: NaN is contagious, otherwise the smaller. *)
Definition min2 (x y : number) : number :=
  match x, y with
  | NaN, _ | _, NaN => NaN
  | _, _ => if ltb y x then y else x
  end.

Definition max2 (x y : number) : number :=
  match x, y with
  | NaN, _ | _, NaN => NaN
  | _, _ => if ltb x y then y else x
  end.

(** [Math.min(...xs)]: +Infinity on no argument. *)
Definition Math_min (xs : list number) : number :=
  fold_left min2 xs (Infinity false).

(** [Math.max(...xs)]: -Infinity on no argument. *)
Definition Math_max (xs : list number) : number :=
  fold_left max2 xs (Infinity true).

(** ToBoolean on a number: 0 and NaN are falsy. *)
Definition truthy (x : number) : bool :=
  match x with
  | NaN => false
  | Infinity _ => true
  | Fin q => negb (Qis_zero q)
  end.

(** [x || y] on numbers. *)
Definition or_else (x y : number) : number := if truthy x then x else y.

(** [Number.isInteger(x)]. *)
Definition isInteger (x : number) : bool :=
  match x with
  | Fin q => (Qnum q mod Zpos (Qden q) =? 0)%Z
  | _ => false
  end.

Definition of_nat (n : nat) : number := Fin (inject_Z (Z.of_nat n)).

(** ** [Number.prototype.toFixed] *)

Definition string_of_Z (n : Z) : string :=
  NilZero.string_of_uint (N.to_uint (Z.to_N n)).

Fixpoint zeros (k : nat) : string :=
  match k with O => "" | S k' => String "0" (zeros k') end.

(** Left-pad with zeros up to [k] characters. *)
Definition pad_left (k : nat) (s : string) : string :=
  zeros (k - String.length s) ++ s.

(** The integer [n] for which [n / 10^f - a] is closest to zero, the larger
    one on a tie ([a >= 0]). *)
Definition round_scaled (f : nat) (a : Q) : Z :=
  let p := (10 ^ Z.of_nat f)%Z in
  ((2 * p * Qnum a + Zpos (Qden a)) / (2 * Zpos (Qden a)))%Z.

(** [x.toFixed(f)] for a finite [x]: sign, integer part, and [f] fraction
    digits (values of magnitude 1e21 and above, which ECMAScript prints in
    exponent form, are outside the grids this program handles and are
    printed positionally as well). *)
Definition toFixed_Q (f : nat) (q : Q) : string :=
  let n := round_scaled f (Qabs q) in
  let p := (10 ^ Z.of_nat f)%Z in
  let body :=
    match f with
    | O => string_of_Z n
    | _ => string_of_Z (n / p) ++ "." ++ pad_left f (string_of_Z (n mod p))
    end in
  if Qsign_neg q then "-" ++ body else body.

Definition toFixed (f : nat) (x : number) : string :=
  match x with
  | NaN => "NaN"
  | Infinity false => "Infinity"
  | Infinity true => "-Infinity"
  | Fin q => toFixed_Q f q
  end.

(** ** [parseFloat] and [parseInt] *)

Definition code (c : ascii) : nat := nat_of_ascii c.

Definition isWhiteSpace (c : ascii) : bool :=
  let n := code c in
  ((9 <=? n) && (n <=? 13))%nat || (n =? 32)%nat.

Definition isDigit (c : ascii) : bool :=
  let n := code c in ((48 <=? n) && (n <=? 57))%nat.

(** Value of a digit in radix 16 (also used for radix 10), if it is one. *)
Definition hexVal (c : ascii) : option Z :=
  let n := code c in
  if ((48 <=? n) && (n <=? 57))%nat then Some (Z.of_nat (n - 48))
  else if ((97 <=? n) && (n <=? 102))%nat then Some (Z.of_nat (n - 87))
  else if ((65 <=? n) && (n <=? 70))%nat then Some (Z.of_nat (n - 55))
  else None.

Definition digitIn (radix : Z) (c : ascii) : bool :=
  match hexVal c with
  | Some v => (v <? radix)%Z
  | None => false
  end.

Definition digitVal (c : ascii) : Z :=
  match hexVal c with Some v => v | None => 0%Z end.

Fixpoint dropWhile (p : ascii -> bool) (l : list ascii) : list ascii :=
  match l with
  | c :: r => if p c then dropWhile p r else l
  | [] => []
  end.

Fixpoint takeWhile (p : ascii -> bool) (l : list ascii) : list ascii :=
  match l with
  | c :: r => if p c then c :: takeWhile p r else []
  | [] => []
  end.

Definition digitsVal (radix : Z) (ds : list ascii) : Z :=
  fold_left (fun acc c => (radix * acc + digitVal c)%Z) ds 0%Z.

Fixpoint startsWith (p l : list ascii) : bool :=
  match p, l with
  | [], _ => true
  | a :: p', b :: l' => Ascii.eqb a b && startsWith p' l'
  | _ :: _, [] => false
  end.

(** An optional sign: whether it is a minus, and the rest. *)
Definition readSign (l : list ascii) : bool * list ascii :=
  match l with
  | "-"%char :: r => (true, r)
  | "+"%char :: r => (false, r)
  | _ => (false, l)
  end.

(** The exponent part [e[+-]digits] in front of [l], 0 when there is none. *)
Definition readExponent (l : list ascii) : Z :=
  match l with
  | c :: r =>
      if (Ascii.eqb c "e" || Ascii.eqb c "E")%bool then
        let '(neg, r') := readSign r in
        match takeWhile isDigit r' with
        | [] => 0%Z
        | es => if neg then (- digitsVal 10 es)%Z else digitsVal 10 es
        end
      else 0%Z
  | [] => 0%Z
  end.

(** [parseFloat(s)]: leading white space is skipped, then the longest prefix
    that is a decimal literal is read; NaN when there is none. *)
Definition parseFloat (s : string) : number :=
  let l := dropWhile isWhiteSpace (list_ascii_of_string s) in
  let '(neg, l1) := readSign l in
  if startsWith (list_ascii_of_string "Infinity") l1 then Infinity neg
  else
    let ip := takeWhile isDigit l1 in
    let l2 := dropWhile isDigit l1 in
    let '(fp, l3) :=
      match l2 with
      | "."%char :: r => (takeWhile isDigit r, dropWhile isDigit r)
      | _ => ([], l2)
      end in
    match (ip ++ fp)%list with
    | [] => NaN
    | ds =>
        let e := (readExponent l3 - Z.of_nat (List.length fp))%Z in
        let m := inject_Z (digitsVal 10 ds) * 10 ^ e in
        Fin (if neg then - m else m)
    end.

(** [parseInt(s)] with no radix: white space, sign, an optional [0x]
    prefix selecting radix 16, then the digits; NaN when there is none. *)
Definition parseInt (s : string) : number :=
  let l := dropWhile isWhiteSpace (list_ascii_of_string s) in
  let '(neg, l1) := readSign l in
  let '(radix, l2) :=
    match l1 with
    | "0"%char :: x :: r =>
        if (Ascii.eqb x "x" || Ascii.eqb x "X")%bool then (16%Z, r)
        else (10%Z, l1)
    | _ => (10%Z, l1)
    end in
  match takeWhile (digitIn radix) l2 with
  | [] => NaN
  | ds =>
      let m := digitsVal radix ds in
      Fin (inject_Z (if neg then (- m)%Z else m))
  end.

End JS.

Abbreviation number := JS.number.
Abbreviation NaN := JS.NaN.
Abbreviation Infinity := JS.Infinity.
Abbreviation Fin := JS.Fin.

(* ================================================================== *)
(** * [types.ts] *)
(* ================================================================== *)

Inductive SimulationModel : Type :=
| MuRerun
| MuResampling
| ImpBiasRerun
| ImpBiasResampling.

(** The string literal each member of the union stands for. *)
Definition modelName (m : SimulationModel) : string :=
  match m with
  | MuRerun =>
      "Setting APS for measurement uncertainty - Analytical rerun simulation"
  | MuResampling =>
      "Setting APS for measurement uncertainty - Resampling simulation"
  | ImpBiasRerun =>
      "Setting APS for imprecision and bias - Analytical rerun simulation"
  | ImpBiasResampling =>
      "Setting APS for imprecision and bias - Resampling simulation"
  end.

Module AgreementThresholds.
Record t : Type := mk { min : number; des : number; opt : number }.
End AgreementThresholds.

Record AppState : Type := mkAppState {
  simulationModel : SimulationModel;
  filePath : option string;
  analyteName : option string;
  decimalPlaces : number;
  cdls : list number;
  agreementThresholds : AgreementThresholds.t;
  biologicalVariation : number;
  sampleSize : option number;
  maxImprecision : number;
  maxBias : number;
  maxMu : number;
  stepSizeMu : number;
  stepSizeImpBias : number;
  useCustomBoundaries : bool
}.

Record SimulationPoint : Type := mkPoint {
  mu : Q;
  bias : Q;
  agreement : Q;
  sensitivity : Q;
  specificity : Q;
  agreement_cat : string;
  sensitivity_cat : string;
  specificity_cat : string;
  sublevel_agreement : list Q;
  sublevel_sensitivity : list Q;
  sublevel_specificity : list Q
}.

Record SimulationResult : Type := mkResult {
  mu_data : list SimulationPoint;
  names : list string
}.

(** Functional record updates [{ ...prev, field: v }] used by the handlers. *)

Definition set_cdls (v : list number) (s : AppState) : AppState :=
  mkAppState (simulationModel s) (filePath s) (analyteName s)
    (decimalPlaces s) v (agreementThresholds s) (biologicalVariation s)
    (sampleSize s) (maxImprecision s) (maxBias s) (maxMu s) (stepSizeMu s)
    (stepSizeImpBias s) (useCustomBoundaries s).

Definition set_biologicalVariation (v : number) (s : AppState) : AppState :=
  mkAppState (simulationModel s) (filePath s) (analyteName s)
    (decimalPlaces s) (cdls s) (agreementThresholds s) v
    (sampleSize s) (maxImprecision s) (maxBias s) (maxMu s) (stepSizeMu s)
    (stepSizeImpBias s) (useCustomBoundaries s).

Definition set_sampleSize (v : option number) (s : AppState) : AppState :=
  mkAppState (simulationModel s) (filePath s) (analyteName s)
    (decimalPlaces s) (cdls s) (agreementThresholds s) (biologicalVariation s)
    v (maxImprecision s) (maxBias s) (maxMu s) (stepSizeMu s)
    (stepSizeImpBias s) (useCustomBoundaries s).

Definition set_maxImprecision (v : number) (s : AppState) : AppState :=
  mkAppState (simulationModel s) (filePath s) (analyteName s)
    (decimalPlaces s) (cdls s) (agreementThresholds s) (biologicalVariation s)
    (sampleSize s) v (maxBias s) (maxMu s) (stepSizeMu s)
    (stepSizeImpBias s) (useCustomBoundaries s).

Definition set_maxBias (v : number) (s : AppState) : AppState :=
  mkAppState (simulationModel s) (filePath s) (analyteName s)
    (decimalPlaces s) (cdls s) (agreementThresholds s) (biologicalVariation s)
    (sampleSize s) (maxImprecision s) v (maxMu s) (stepSizeMu s)
    (stepSizeImpBias s) (useCustomBoundaries s).

Definition set_maxMu (v : number) (s : AppState) : AppState :=
  mkAppState (simulationModel s) (filePath s) (analyteName s)
    (decimalPlaces s) (cdls s) (agreementThresholds s) (biologicalVariation s)
    (sampleSize s) (maxImprecision s) (maxBias s) v (stepSizeMu s)
    (stepSizeImpBias s) (useCustomBoundaries s).

Definition set_decimalPlaces (v : number) (s : AppState) : AppState :=
  mkAppState (simulationModel s) (filePath s) (analyteName s)
    v (cdls s) (agreementThresholds s) (biologicalVariation s)
    (sampleSize s) (maxImprecision s) (maxBias s) (maxMu s) (stepSizeMu s)
    (stepSizeImpBias s) (useCustomBoundaries s).

Definition set_agreementThresholds (v : AgreementThresholds.t) (s : AppState)
  : AppState :=
  mkAppState (simulationModel s) (filePath s) (analyteName s)
    (decimalPlaces s) (cdls s) v (biologicalVariation s)
    (sampleSize s) (maxImprecision s) (maxBias s) (maxMu s) (stepSizeMu s)
    (stepSizeImpBias s) (useCustomBoundaries s).

Definition set_stepSizeMu (v : number) (s : AppState) : AppState :=
  mkAppState (simulationModel s) (filePath s) (analyteName s)
    (decimalPlaces s) (cdls s) (agreementThresholds s) (biologicalVariation s)
    (sampleSize s) (maxImprecision s) (maxBias s) (maxMu s) v
    (stepSizeImpBias s) (useCustomBoundaries s).

Definition set_stepSizeImpBias (v : number) (s : AppState) : AppState :=
  mkAppState (simulationModel s) (filePath s) (analyteName s)
    (decimalPlaces s) (cdls s) (agreementThresholds s) (biologicalVariation s)
    (sampleSize s) (maxImprecision s) (maxBias s) (maxMu s) (stepSizeMu s)
    v (useCustomBoundaries s).

Definition set_useCustomBoundaries (v : bool) (s : AppState) : AppState :=
  mkAppState (simulationModel s) (filePath s) (analyteName s)
    (decimalPlaces s) (cdls s) (agreementThresholds s) (biologicalVariation s)
    (sampleSize s) (maxImprecision s) (maxBias s) (maxMu s) (stepSizeMu s)
    (stepSizeImpBias s) v.

Definition set_simulationModel (v : SimulationModel) (s : AppState)
  : AppState :=
  mkAppState v (filePath s) (analyteName s)
    (decimalPlaces s) (cdls s) (agreementThresholds s) (biologicalVariation s)
    (sampleSize s) (maxImprecision s) (maxBias s) (maxMu s) (stepSizeMu s)
    (stepSizeImpBias s) (useCustomBoundaries s).

(* ================================================================== *)
(** * [App.tsx] *)
(* ================================================================== *)

(** The argument of [useState<AppState>] in [App]. *)
Definition initialState : AppState := {|
  simulationModel := MuRerun;
  filePath := None;
  analyteName := None;
  decimalPlaces := Fin 0;
  cdls := [Fin 0];
  agreementThresholds := AgreementThresholds.mk (Fin 90) (Fin 95) (Fin 99);
  biologicalVariation := Fin 0;
  sampleSize := None;
  maxImprecision := Fin 33.3;
  maxBias := Fin 35;
  maxMu := Fin 33.1;
  stepSizeMu := Fin 0.1;
  stepSizeImpBias := Fin 1.0;
  useCustomBoundaries := false
|}.

(** The [config] object literal built in [handleSimulate]. *)
Module SimulationConfig.
Record t : Type := mk {
  model : SimulationModel;
  data : list Q;
  cdls : list number;
  decimal_places : number;
  agreement_thresholds : list number;
  cv_i : option number;
  sample_size : option number;
  max_imprecision : option number;
  max_bias : option number;
  max_mu : option number;
  step_size_mu : option number;
  step_size_imp_bias : option number
}.
End SimulationConfig.

Definition mkConfig (state : AppState) (data : list Q)
  : SimulationConfig.t := {|
  SimulationConfig.model := simulationModel state;
  SimulationConfig.data := data;
  SimulationConfig.cdls := cdls state;
  SimulationConfig.decimal_places := decimalPlaces state;
  SimulationConfig.agreement_thresholds :=
    [ AgreementThresholds.min (agreementThresholds state);
      AgreementThresholds.des (agreementThresholds state);
      AgreementThresholds.opt (agreementThresholds state) ];
  SimulationConfig.cv_i :=
    if JS.gtb (biologicalVariation state) (Fin 0)
    then Some (biologicalVariation state) else None;
  SimulationConfig.sample_size := sampleSize state;
  SimulationConfig.max_imprecision :=
    if useCustomBoundaries state then Some (maxImprecision state) else None;
  SimulationConfig.max_bias :=
    if useCustomBoundaries state then Some (maxBias state) else None;
  SimulationConfig.max_mu :=
    if useCustomBoundaries state then Some (maxMu state) else None;
  SimulationConfig.step_size_mu :=
    if useCustomBoundaries state then Some (stepSizeMu state) else None;
  SimulationConfig.step_size_imp_bias :=
    if useCustomBoundaries state then Some (stepSizeImpBias state) else None
|}.

(** ** The component state of [App] and the asynchronous monad *)

(** The [useState] cells of [App] that [handleSimulate] writes, and what it
    leaves in the world: the alerts shown, the live [simulation-progress]
    listeners, and the commands invoked on the backend. *)
Record UI : Type := mkUI {
  results : option SimulationResult;
  originalData : option (list Q);
  isSimulating : bool;
  progress : number;
  alerts : list string;
  listeners : nat;
  sent : list SimulationConfig.t
}.

Inductive outcome (A : Type) : Type :=
| Returned (a : A)
| Thrown (error : string).
Arguments Returned {A} a.
Arguments Thrown {A} error.

Definition Async (A : Type) : Type := UI -> outcome A * UI.

Definition ret {A} (a : A) : Async A := fun ui => (Returned a, ui).

Definition throw {A} (error : string) : Async A := fun ui => (Thrown error, ui).

Definition bind {A B} (m : Async A) (k : A -> Async B) : Async B :=
  fun ui =>
    match m ui with
    | (Returned a, ui') => k a ui'
    | (Thrown e, ui') => (Thrown e, ui')
    end.

Declare Scope async_scope.
Delimit Scope async_scope with async.
Notation "x <- m ;; k" := (bind m (fun x => k))
  (at level 61, m at next level, right associativity) : async_scope.
Notation "m ;; k" := (bind m (fun _ => k))
  (at level 61, right associativity) : async_scope.

(** [try { body } catch (error) { handler error } finally { fin }]. *)
Definition try_catch_finally
    (body : Async unit) (handler : string -> Async unit) (fin : Async unit)
  : Async unit :=
  fun ui =>
    let '(o, ui1) :=
      match body ui with
      | (Returned a, ui') => (Returned a, ui')
      | (Thrown e, ui') => handler e ui'
      end in
    match fin ui1 with
    | (Returned _, ui2) => (o, ui2)
    | (Thrown e, ui2) => (Thrown e, ui2)
    end.

(** [await p] for a promise that has settled with [p]. *)
Definition await {A} (p : string + A) : Async A :=
  match p with
  | inl error => throw error
  | inr a => ret a
  end.

Definition setResults (r : SimulationResult) : Async unit :=
  fun ui => (Returned tt,
    mkUI (Some r) (originalData ui) (isSimulating ui) (progress ui)
         (alerts ui) (listeners ui) (sent ui)).

Definition setOriginalData (d : list Q) : Async unit :=
  fun ui => (Returned tt,
    mkUI (results ui) (Some d) (isSimulating ui) (progress ui)
         (alerts ui) (listeners ui) (sent ui)).

Definition setIsSimulating (b : bool) : Async unit :=
  fun ui => (Returned tt,
    mkUI (results ui) (originalData ui) b (progress ui)
         (alerts ui) (listeners ui) (sent ui)).

Definition setProgress (p : number) : Async unit :=
  fun ui => (Returned tt,
    mkUI (results ui) (originalData ui) (isSimulating ui) p
         (alerts ui) (listeners ui) (sent ui)).

Definition alert (msg : string) : Async unit :=
  fun ui => (Returned tt,
    mkUI (results ui) (originalData ui) (isSimulating ui) (progress ui)
         (alerts ui ++ [msg]) (listeners ui) (sent ui)).

Definition addListener : Async unit :=
  fun ui => (Returned tt,
    mkUI (results ui) (originalData ui) (isSimulating ui) (progress ui)
         (alerts ui) (S (listeners ui)) (sent ui)).

(** The function [listen] resolves to. *)
Definition unlisten : Async unit :=
  fun ui => (Returned tt,
    mkUI (results ui) (originalData ui) (isSimulating ui) (progress ui)
         (alerts ui) (pred (listeners ui)) (sent ui)).

Definition record_sent (c : SimulationConfig.t) : Async unit :=
  fun ui => (Returned tt,
    mkUI (results ui) (originalData ui) (isSimulating ui) (progress ui)
         (alerts ui) (listeners ui) (sent ui ++ [c])).

(** The Tauri side, as far as [handleSimulate] sees it: how each promise
    settles (an error message on rejection), and the progress payloads
    emitted while a simulation runs. *)
Record Backend : Type := mkBackend {
  listen_result : string + unit;
  load_column_data : string -> string -> string + list Q;
  run_simulation_async : SimulationConfig.t -> string + SimulationResult;
  progress_events : SimulationConfig.t -> list number
}.

(** [!s] for a [string | null]. *)
Definition falsy (s : option string) : bool :=
  match s with
  | None => true
  | Some v => String.eqb v ""
  end.

Definition unwrap (s : option string) : string :=
  match s with Some v => v | None => "" end.

(** [listen('simulation-progress', event => setProgress(event.payload))]. *)
Definition listen (B : Backend) : Async (Async unit) :=
  (_ <- await (listen_result B) ;;
   addListener ;;
   ret unlisten)%async.

(** The registered listener, run once per emitted event. *)
Fixpoint deliver (events : list number) : Async unit :=
  match events with
  | [] => ret tt
  | p :: rest => (setProgress p ;; deliver rest)%async
  end.

(** [invoke('run_simulation_async', { config })]: the command is sent, the
    listener sees the progress events, then the promise settles. *)
Definition invoke_run (B : Backend) (config : SimulationConfig.t)
  : Async SimulationResult :=
  (record_sent config ;;
   deliver (progress_events B config) ;;
   await (run_simulation_async B config))%async.

Definition handleSimulate (B : Backend) (state : AppState) : Async unit :=
  if (falsy (filePath state) || falsy (analyteName state))%bool then ret tt
  else
    (setIsSimulating true ;;
     setProgress (Fin 0) ;;
     unlisten <- listen B ;;
     try_catch_finally
       (data <- await (load_column_data B (unwrap (filePath state))
                                          (unwrap (analyteName state))) ;;
        setOriginalData data ;;
        let config := mkConfig state data in
        result <- invoke_run B config ;;
        setResults result)
       (fun error => alert ("Simulation failed: " ++ error))
       (unlisten ;; setIsSimulating false))%async.

(* ================================================================== *)
(** * [components/Sidebar.tsx] *)
(* ================================================================== *)

(** A handler, given the state captured by the render that created it,
    yields the updater passed to [setState] (the identity when the handler
    does not call [setState]). *)
Definition handler : Type := AppState -> AppState -> AppState.

(** React re-renders after each discrete event, so the state a handler has
    captured is the state its updater is applied to. *)
Definition fire (h : handler) (s : AppState) : AppState := h s s.

(** [a[index] = value] on a copy, for an index inside the array.  The only
    caller takes [index] from [state.cdls.map((cdl, idx) => ...)], so it is
    always inside; an index outside leaves the list as it is here. *)
Fixpoint array_set (a : list number) (index : nat) (value : number)
  : list number :=
  match a, index with
  | [], _ => []
  | _ :: r, O => value :: r
  | x :: r, S i => x :: array_set r i value
  end.

Definition updateCDL (index : nat) (value : number) : handler :=
  fun state prev =>
    let newCDLs := array_set (cdls state) index value in
    set_cdls newCDLs prev.

Definition addCDL : handler :=
  fun state prev =>
    if (List.length (cdls state) <? 7)%nat
    then set_cdls (cdls prev ++ [Fin 0]) prev
    else prev.

(** [prev.cdls.slice(0, -1)] is the list without its last element. *)
Definition removeCDL : handler :=
  fun state prev =>
    if (1 <? List.length (cdls state))%nat
    then set_cdls (removelast (cdls prev)) prev
    else prev.

Definition handleModelChange (value : SimulationModel) : handler :=
  fun _ prev => set_simulationModel value prev.

(** [onChange] of the "Decimal Places" input. *)
Definition onChange_decimalPlaces (value : string) : handler :=
  fun _ prev =>
    set_decimalPlaces (JS.or_else (JS.parseInt value) (Fin 0)) prev.

(** [onChange] of the three "Agreement Thresholds (%)" inputs; the parsed
    value is stored as it is, NaN included. *)
Definition onChange_min (value : string) : handler :=
  fun _ prev =>
    set_agreementThresholds
      (AgreementThresholds.mk
         (JS.parseFloat value)
         (AgreementThresholds.des (agreementThresholds prev))
         (AgreementThresholds.opt (agreementThresholds prev)))
      prev.

Definition onChange_des (value : string) : handler :=
  fun _ prev =>
    set_agreementThresholds
      (AgreementThresholds.mk
         (AgreementThresholds.min (agreementThresholds prev))
         (JS.parseFloat value)
         (AgreementThresholds.opt (agreementThresholds prev)))
      prev.

Definition onChange_opt (value : string) : handler :=
  fun _ prev =>
    set_agreementThresholds
      (AgreementThresholds.mk
         (AgreementThresholds.min (agreementThresholds prev))
         (AgreementThresholds.des (agreementThresholds prev))
         (JS.parseFloat value))
      prev.

(** [onChange] of the "Adjust Simulation Boundaries" checkbox. *)
Definition onChange_useCustomBoundaries (checked : bool) : handler :=
  fun _ prev => set_useCustomBoundaries checked prev.

(** [onChange] of the two "Step Size (%)" inputs. *)
Definition onChange_stepSizeMu (value : string) : handler :=
  fun _ prev =>
    set_stepSizeMu (JS.or_else (JS.parseFloat value) (Fin 0.5)) prev.

Definition onChange_stepSizeImpBias (value : string) : handler :=
  fun _ prev =>
    set_stepSizeImpBias (JS.or_else (JS.parseFloat value) (Fin 0.5)) prev.

(** [onChange] of the CV_i input. *)
Definition onChange_biologicalVariation (value : string) : handler :=
  fun _ prev =>
    set_biologicalVariation (JS.or_else (JS.parseFloat value) (Fin 0)) prev.

(** [onChange] of the "Max Measurement Uncertainty (%)" input. *)
Definition onChange_maxMu (value : string) : handler :=
  fun _ prev =>
    let val := JS.parseFloat value in
    if negb (JS.isNaN val)
    then set_maxMu (JS.Math_min [val; Fin 33.3]) prev
    else set_maxMu (Fin 0) prev.

(** [onChange] of the "Max Imprecision (CV%)" input. *)
Definition onChange_maxImprecision (value : string) : handler :=
  fun _ prev =>
    let val := JS.parseFloat value in
    if negb (JS.isNaN val)
    then set_maxImprecision (JS.Math_min [val; Fin 33.3]) prev
    else set_maxImprecision (Fin 0) prev.

(** [onChange] of the "Max Bias (%)" input. *)
Definition onChange_maxBias (value : string) : handler :=
  fun _ prev =>
    let val := JS.parseFloat value in
    if negb (JS.isNaN val)
    then set_maxBias (JS.Math_min [val; Fin 100]) prev
    else set_maxBias (Fin 0) prev.

(** [dataCount || dflt] for [dataCount : number | null]. *)
Definition dataCount_or (dataCount : option nat) (dflt : number) : number :=
  match dataCount with
  | Some n => JS.or_else (JS.of_nat n) dflt
  | None => dflt
  end.

(** [onChange] of the "Optional Sampling" checkbox. *)
Definition onChange_useSampling (dataCount : option nat) (checked : bool)
  : handler :=
  fun _ prev =>
    set_sampleSize
      (if checked then Some (dataCount_or dataCount (Fin 1000)) else None)
      prev.

(** [onChange] of the sample-size input. *)
Definition onChange_sampleSize (dataCount : option nat) (value : string)
  : handler :=
  fun _ prev =>
    let val := JS.parseInt value in
    let max := dataCount_or dataCount (Infinity false) in
    if negb (JS.isNaN val)
    then set_sampleSize (Some (JS.Math_min [val; max])) prev
    else set_sampleSize (Some (Fin 0)) prev.

(** What the user can do to the decision-limit list: the [+] and [-]
    buttons and typing into one of the rendered CDL inputs. *)
Inductive cdl_event : Type :=
| ClickAdd
| ClickRemove
| TypeCDL (index : nat) (value : string).

Definition cdl_handler (e : cdl_event) : handler :=
  match e with
  | ClickAdd => addCDL
  | ClickRemove => removeCDL
  | TypeCDL index value =>
      updateCDL index (JS.or_else (JS.parseFloat value) (Fin 0))
  end.

(** An input exists only for the indices of [state.cdls]. *)
Definition cdl_enabled (e : cdl_event) (s : AppState) : Prop :=
  match e with
  | TypeCDL index _ => (index < List.length (cdls s))%nat
  | _ => True
  end.

Inductive cdl_reachable : AppState -> Prop :=
| cdl_init : cdl_reachable initialState
| cdl_step (e : cdl_event) (s : AppState) :
    cdl_reachable s -> cdl_enabled e s ->
    cdl_reachable (fire (cdl_handler e) s).

(* ================================================================== *)
(** * [components/Results.tsx] *)
(* ================================================================== *)

Inductive Metric : Type := Agreement | Sensitivity | Specificity.

Inductive LimitType : Type := Mu | BiasPos | BiasNeg.

(** [d[metric]]. *)
Definition overall (metric : Metric) (d : SimulationPoint) : Q :=
  match metric with
  | Agreement => agreement d
  | Sensitivity => sensitivity d
  | Specificity => specificity d
  end.

(** [d.sublevel_<metric>?.[levelIndex]]; [None] is [undefined]. *)
Definition sublevel (metric : Metric) (levelIndex : nat) (d : SimulationPoint)
  : option Q :=
  match metric with
  | Agreement => nth_error (sublevel_agreement d) levelIndex
  | Sensitivity => nth_error (sublevel_sensitivity d) levelIndex
  | Specificity => nth_error (sublevel_specificity d) levelIndex
  end.

(** [v ?? dflt]. *)
Definition nullish (v : option Q) (dflt : Q) : Q :=
  match v with Some q => q | None => dflt end.

(** The [val] of the filter callback in [getLimit]. *)
Definition metricVal (metric : Metric) (levelIndex : option nat)
    (d : SimulationPoint) : option Q :=
  match levelIndex with
  | Some i => sublevel metric i d
  | None => Some (overall metric d)
  end.

(** [(val ?? 0) * 100]. *)
Definition metricPct (metric : Metric) (levelIndex : option nat)
    (d : SimulationPoint) : number :=
  JS.mul (Fin (nullish (metricVal metric levelIndex d) 0)) (Fin 100).

Definition validPoints (results : SimulationResult) (metric : Metric)
    (levelIndex : option nat) (threshold : number) : list SimulationPoint :=
  filter (fun d => JS.geb (metricPct metric levelIndex d) threshold)
         (mu_data results).

Definition getLimit (results : SimulationResult) (metric : Metric)
    (levelIndex : option nat) (threshold : number) (type : LimitType)
  : string :=
  let validPoints := validPoints results metric levelIndex threshold in
  if (List.length validPoints =? 0)%nat then "NO"
  else
    match type with
    | Mu =>
        let maxMu :=
          JS.Math_max
            (map (fun d => JS.mul (Fin (mu d)) (Fin 100)) validPoints) in
        if JS.gtb maxMu (Fin 33) then "NA" else JS.toFixed 1 maxMu
    | BiasPos =>
        let maxBias :=
          JS.Math_max
            (map (fun d => JS.mul (Fin (bias d)) (Fin 100)) validPoints) in
        if JS.gtb maxBias (Fin 33) then "NA" else JS.toFixed 1 maxBias
    | BiasNeg =>
        let minBias :=
          JS.Math_min
            (map (fun d => JS.mul (Fin (bias d)) (Fin 100)) validPoints) in
        if JS.gtb (JS.Math_abs minBias) (Fin 33) then "NA"
        else JS.toFixed 1 minBias
    end.

Definition isMuModel (simulationModel : SimulationModel) : bool :=
  String.eqb (modelName simulationModel)
    "Setting APS for measurement uncertainty - Analytical rerun simulation".

(** The body of the APS-limits table of [renderSummaryTable]: per row its
    label and its cells; [None] when there are no results. *)
Definition renderSummaryTable (results : option SimulationResult)
    (agreementThresholds : AgreementThresholds.t)
    (simulationModel : SimulationModel)
    (metric : Metric) (levelIndex : option nat)
  : option (list (string * list string)) :=
  match results with
  | None => None
  | Some results =>
      let rows :=
        [ ("Minimum", AgreementThresholds.min agreementThresholds);
          ("Desirable", AgreementThresholds.des agreementThresholds);
          ("Optimal", AgreementThresholds.opt agreementThresholds) ] in
      Some (map (fun row =>
        let get := getLimit results metric levelIndex (snd row) in
        (fst row,
         get Mu ::
         (if negb (isMuModel simulationModel) then [get BiasPos; get BiasNeg]
          else [])))
        rows)
  end.

(** The callback of [z_pct.map] that picks the marker colour in
    [renderScatterPlot]. *)
Definition colorOf (usePastelColors : bool)
    (agreementThresholds : AgreementThresholds.t) (val : number) : string :=
  let opt := AgreementThresholds.opt agreementThresholds in
  let des := AgreementThresholds.des agreementThresholds in
  let min := AgreementThresholds.min agreementThresholds in
  if usePastelColors then
    if JS.geb val opt then "#76C7C0"
    else if JS.geb val des then "#5DADE2"
    else if JS.geb val min then "#F4D03F"
    else "#EC7063"
  else
    if JS.geb val opt then "rgb(0, 0, 255)"
    else if JS.geb val des then "rgb(0, 176, 0)"
    else if JS.geb val min then "rgb(166, 0, 0)"
    else "rgb(200, 200, 200)".

(** [z], [z_pct] and [colors] of the standard-model branch of
    [renderScatterPlot]. *)
Definition scatter_z (results : SimulationResult) (metric : Metric)
    (levelIndex : option nat) : list number :=
  map (fun d =>
         match levelIndex with
         | Some i => Fin (nullish (sublevel metric i d) 0)
         | None => Fin (overall metric d)
         end)
      (mu_data results).

Definition scatter_z_pct (results : SimulationResult) (metric : Metric)
    (levelIndex : option nat) : list number :=
  map (fun v => JS.mul v (Fin 100)) (scatter_z results metric levelIndex).

Definition scatter_colors (results : SimulationResult)
    (agreementThresholds : AgreementThresholds.t) (metric : Metric)
    (levelIndex : option nat) (usePastelColors : bool) : list string :=
  map (colorOf usePastelColors agreementThresholds)
      (scatter_z_pct results metric levelIndex).

(** The callback of [results.mu_data.map] that computes [categories] in
    [renderCombinedPlot]. *)
Definition categoryOf (agreementThresholds : AgreementThresholds.t)
    (levelIndex : nat) (d : SimulationPoint) : string :=
  let sens :=
    JS.mul (Fin (nullish (nth_error (sublevel_sensitivity d) levelIndex) 0))
           (Fin 100) in
  let spec :=
    JS.mul (Fin (nullish (nth_error (sublevel_specificity d) levelIndex) 0))
           (Fin 100) in
  let min := AgreementThresholds.min agreementThresholds in
  let sensPass := JS.geb sens min in
  let specPass := JS.geb spec min in
  if (sensPass && specPass)%bool then "Sensitivity & Specificity"
  else if sensPass then "Sensitivity"
  else if specPass then "Specificity"
  else "Other".

Definition categories (results : SimulationResult)
    (agreementThresholds : AgreementThresholds.t) (levelIndex : nat)
  : list string :=
  map (categoryOf agreementThresholds levelIndex) (mu_data results).

Definition uniqueCategories : list string :=
  ["Sensitivity & Specificity"; "Sensitivity"; "Specificity"; "Other"].

(** [categories.map((c, i) => c === cat ? i : -1).filter(i => i !== -1)]:
    the grid indices plotted in the trace of [cat]. *)
Fixpoint mapi_from {A B : Type} (f : A -> nat -> B) (l : list A) (i : nat)
  : list B :=
  match l with
  | [] => []
  | a :: r => f a i :: mapi_from f r (S i)
  end.

Definition indicesOf (cat : string) (categories : list string) : list Z :=
  filter (fun i => negb (i =? -1)%Z)
    (mapi_from (fun c i => if String.eqb c cat then Z.of_nat i else (-1)%Z)
               categories 0%nat).

(* ================================================================== *)
(** * Vocabulary of the specification *)
(* ================================================================== *)

(** The four qualitative buckets, and the marker colour
    [renderScatterPlot] gives each in either palette. *)
Inductive bucket : Type := Optimal | Desirable | Minimum | BelowMin.

Definition bucket_color (usePastelColors : bool) (b : bucket) : string :=
  match usePastelColors, b with
  | true, Optimal => "#76C7C0"
  | true, Desirable => "#5DADE2"
  | true, Minimum => "#F4D03F"
  | true, BelowMin => "#EC7063"
  | false, Optimal => "rgb(0, 0, 255)"
  | false, Desirable => "rgb(0, 176, 0)"
  | false, Minimum => "rgb(166, 0, 0)"
  | false, BelowMin => "rgb(200, 200, 200)"
  end.

(** A grid point is kept by the lookup when its metric, as a percentage,
    reaches the threshold. *)
Definition kept (results : SimulationResult) (metric : Metric)
    (levelIndex : option nat) (threshold : number) (d : SimulationPoint)
  : Prop :=
  In d (mu_data results) /\
  JS.geb (metricPct metric levelIndex d) threshold = true.

(** The quantity a column of the APS-limits table ranges over, as a
    percentage. *)
Definition column_pct (type : LimitType) (d : SimulationPoint) : Q :=
  match type with
  | Mu => mu d * 100
  | BiasPos | BiasNeg => bias d * 100
  end.

(** [d] realises the extremum of its column over the kept points: the
    largest value for [Mu] and [BiasPos], the smallest for [BiasNeg]. *)
Definition extremal (results : SimulationResult) (metric : Metric)
    (levelIndex : option nat) (threshold : number) (type : LimitType)
    (d : SimulationPoint) : Prop :=
  kept results metric levelIndex threshold d /\
  forall d', kept results metric levelIndex threshold d' ->
    match type with
    | Mu | BiasPos => column_pct type d' <= column_pct type d
    | BiasNeg => column_pct type d <= column_pct type d'
    end.

(** The test each branch of [getLimit] applies before printing "NA": the
    signed maximum for [Mu] and [BiasPos], the magnitude of the minimum for
    [BiasNeg]. *)
Definition beyond_cutoff (type : LimitType) (e : Q) : bool :=
  match type with
  | Mu | BiasPos => JS.Qltb 33 e
  | BiasNeg => JS.Qltb 33 (Qabs e)
  end.

(** The extremum [getLimit] selects, before any cutoff or formatting. *)
Definition extremum (results : SimulationResult) (metric : Metric)
    (levelIndex : option nat) (threshold : number) (type : LimitType)
  : number :=
  let pts := validPoints results metric levelIndex threshold in
  match type with
  | Mu => JS.Math_max (map (fun d => JS.mul (Fin (mu d)) (Fin 100)) pts)
  | BiasPos => JS.Math_max (map (fun d => JS.mul (Fin (bias d)) (Fin 100)) pts)
  | BiasNeg => JS.Math_min (map (fun d => JS.mul (Fin (bias d)) (Fin 100)) pts)
  end.

(** The lookup as the specification words it: filter, "NO" when nothing is
    left, otherwise the extremum to one decimal. *)
Definition getLimit_as_specified (results : SimulationResult)
    (metric : Metric) (levelIndex : option nat) (threshold : number)
    (type : LimitType) : string :=
  match validPoints results metric levelIndex threshold with
  | [] => "NO"
  | _ :: _ =>
      JS.toFixed 1 (extremum results metric levelIndex threshold type)
  end.

(** The ways a call of [handleSimulate] can go, read off its control flow:
    the guard returns at once; [listen] rejects before the [try]; loading
    the column rejects; the simulation rejects; the simulation resolves. *)
Inductive run_shape (B : Backend) (state : AppState) (ui ui' : UI) : Prop :=
| shape_guard :
    (falsy (filePath state) || falsy (analyteName state))%bool = true ->
    ui' = ui -> run_shape B state ui ui'
| shape_listen_rejected (error : string) :
    listen_result B = inl error ->
    results ui' = results ui -> sent ui' = sent ui ->
    alerts ui' = alerts ui -> isSimulating ui' = true ->
    run_shape B state ui ui'
| shape_load_rejected (error : string) :
    listen_result B = inr tt ->
    load_column_data B (unwrap (filePath state)) (unwrap (analyteName state))
      = inl error ->
    results ui' = results ui -> sent ui' = sent ui ->
    alerts ui' = (alerts ui ++ [("Simulation failed: " ++ error)%string])%list ->
    isSimulating ui' = false ->
    run_shape B state ui ui'
| shape_run_rejected (data : list Q) (error : string) :
    listen_result B = inr tt ->
    load_column_data B (unwrap (filePath state)) (unwrap (analyteName state))
      = inr data ->
    run_simulation_async B (mkConfig state data) = inl error ->
    results ui' = results ui ->
    sent ui' = (sent ui ++ [mkConfig state data])%list ->
    alerts ui' = (alerts ui ++ [("Simulation failed: " ++ error)%string])%list ->
    isSimulating ui' = false ->
    run_shape B state ui ui'
| shape_run_resolved (data : list Q) (result : SimulationResult) :
    listen_result B = inr tt ->
    load_column_data B (unwrap (filePath state)) (unwrap (analyteName state))
      = inr data ->
    run_simulation_async B (mkConfig state data) = inr result ->
    results ui' = Some result ->
    sent ui' = (sent ui ++ [mkConfig state data])%list ->
    alerts ui' = alerts ui ->
    isSimulating ui' = false ->
    run_shape B state ui ui'.

(** ** Concrete inputs used below *)

(** A grid point with the given [mu], [bias] and overall agreement, and one
    decision limit whose sublevel sensitivity and specificity are given. *)
Definition point (mu bias agreement sens spec : Q) : SimulationPoint :=
  mkPoint mu bias agreement sens spec "" "" "" [agreement] [sens] [spec].

Definition grid (pts : list SimulationPoint) : SimulationResult :=
  mkResult pts ["5"].

Definition th_default : AgreementThresholds.t :=
  agreementThresholds initialState.

Definition emptyUI : UI := mkUI None None false (Fin 0) [] 0 [].

Definition loadedState : AppState :=
  mkAppState MuRerun (Some "data.csv") (Some "glucose") (Fin 0) [Fin 5]
    th_default (Fin 0) None (Fin 33.3) (Fin 35) (Fin 33.1) (Fin 0.1) (Fin 1.0)
    false.

(** A backend whose simulation command always rejects. *)
Definition failingBackend : Backend :=
  mkBackend (inr tt) (fun _ _ => inr [1; 2; 3])
            (fun _ => inl "dataset is empty") (fun _ => [Fin 50]).

(** A backend whose simulation command resolves with a one-point grid. *)
Definition workingBackend : Backend :=
  mkBackend (inr tt) (fun _ _ => inr [1; 2; 3])
            (fun _ => inr (grid [point 0 0 1 1 1])) (fun _ => [Fin 100]).

(** Three points of a measurement-uncertainty grid: agreement 97 % at
    [mu] 5 %, 92 % at 10 % and 80 % at 20 %. *)
Definition grid_mu : SimulationResult :=
  grid [point 0.05 0 0.97 1 1; point 0.10 0 0.92 1 1; point 0.20 0 0.80 1 1].

(** A grid whose only point has [mu] 35 % and full agreement. *)
Definition grid_mu35 : SimulationResult := grid [point 0.35 0 1 1 1].


(* ================================================================== *)
(** * The rest of [App.tsx] *)
(* ================================================================== *)

(** The body of the [fetchDataCount] effect: the value [setDataCount]
    receives. *)
Definition fetchDataCount (B : Backend) (state : AppState) : option nat :=
  if (negb (falsy (filePath state)) && negb (falsy (analyteName state)))%bool
  then
    match load_column_data B (unwrap (filePath state))
                             (unwrap (analyteName state)) with
    | inr data => Some (List.length data)
    | inl _ => None
    end
  else None.

(** What [handleUpload] reads and writes: the application state, the
    [columns] cell, and the alerts shown. *)
Record Shell : Type := mkShell {
  app_state : AppState;
  columns : list string;
  shown : list string
}.

(** How the file dialog and the [get_file_columns] command settle: [open]
    resolves to the selected path or to [null] (the dialog is opened with
    [multiple: false]), or rejects. *)
Record FileDialog : Type := mkFileDialog {
  open_result : string + option string;
  get_file_columns : string -> string + list string
}.

Definition set_file (path : string) (column : option string) (s : AppState)
  : AppState :=
  mkAppState (simulationModel s) (Some path) column
    (decimalPlaces s) (cdls s) (agreementThresholds s) (biologicalVariation s)
    (sampleSize s) (maxImprecision s) (maxBias s) (maxMu s) (stepSizeMu s)
    (stepSizeImpBias s) (useCustomBoundaries s).

Definition set_analyteName (column : option string) (s : AppState)
  : AppState :=
  mkAppState (simulationModel s) (filePath s) column
    (decimalPlaces s) (cdls s) (agreementThresholds s) (biologicalVariation s)
    (sampleSize s) (maxImprecision s) (maxBias s) (maxMu s) (stepSizeMu s)
    (stepSizeImpBias s) (useCustomBoundaries s).

Definition upload_failed (error : string) (w : Shell) : Shell :=
  mkShell (app_state w) (columns w)
          (shown w ++ [("Failed to open file: " ++ error)%string]).

Definition handleUpload (D : FileDialog) (w : Shell) : Shell :=
  match open_result D with
  | inl error => upload_failed error w
  | inr None => w
  | inr (Some selected) =>
      if String.eqb selected "" then w
      else
        match get_file_columns D selected with
        | inl error => upload_failed error w
        | inr cols =>
            match cols with
            | first :: _ =>
                mkShell (set_file selected (Some first) (app_state w)) cols (shown w)
            | [] =>
                mkShell (set_file selected None (app_state w)) cols (shown w)
            end
        end
  end.

(* ================================================================== *)
(** * The rest of [components/Sidebar.tsx] *)
(* ================================================================== *)

(** [s.includes(search)]. *)
Fixpoint includes (s search : string) : bool :=
  (String.prefix search s
   || match s with
      | EmptyString => false
      | String _ rest => includes rest search
      end)%bool.

(** The conditions under which the sidebar renders an input or disables a
    button. *)
Definition showsCvInput (state : AppState) : bool :=
  includes (modelName (simulationModel state)) "Resampling".

Definition showsMuBoundaries (state : AppState) : bool :=
  (useCustomBoundaries state
   && includes (modelName (simulationModel state)) "measurement uncertainty")%bool.

Definition showsImpBiasBoundaries (state : AppState) : bool :=
  (useCustomBoundaries state
   && negb (includes (modelName (simulationModel state))
                     "measurement uncertainty"))%bool.

Definition showsSampleSizeInput (state : AppState) : bool :=
  match sampleSize state with Some _ => true | None => false end.

Definition removeDisabled (state : AppState) : bool :=
  (List.length (cdls state) <=? 1)%nat.

Definition addDisabled (state : AppState) : bool :=
  (7 <=? List.length (cdls state))%nat.

Definition simulateDisabled (isSimulating : bool) (state : AppState) : bool :=
  (isSimulating || falsy (filePath state) || falsy (analyteName state))%bool.

(** [onChange] of the "Measurand Name" select. *)
Definition onChange_analyteName (value : string) : handler :=
  fun _ prev => set_analyteName (Some value) prev.

(** The separators of the regular expression [/[/\\]/]: slash and
    backslash. *)
Definition isSeparator (c : ascii) : bool :=
  ((JS.code c =? 47) || (JS.code c =? 92))%nat.

(** [path.split(/[/\\]/)]: the pieces between separators; never empty. *)
Fixpoint split_path (path : string) : list string :=
  match path with
  | EmptyString => [EmptyString]
  | String c rest =>
      if isSeparator c then EmptyString :: split_path rest
      else
        match split_path rest with
        | piece :: pieces => String c piece :: pieces
        | [] => [String c EmptyString]
        end
  end.

(** [a.pop()]: the last element, [undefined] on an empty array. *)
Fixpoint pop (a : list string) : option string :=
  match a with
  | [] => None
  | [x] => Some x
  | _ :: r => pop r
  end.

(** The file name shown under the upload button:
    [state.filePath.split(/[/\\]/).pop()]. *)
Definition fileLabel (path : string) : option string := pop (split_path path).

(** Everything the user can do in the sidebar.  [dataCount] is a prop of
    the component and changes as files load, so the two sampling events
    carry the value it has when they fire. *)
Inductive sidebar_event : Type :=
| ChooseModel (m : SimulationModel)
| ChooseAnalyte (column : string)
| TypeDecimalPlaces (value : string)
| OnCDL (e : cdl_event)
| TypeMin (value : string)
| TypeDes (value : string)
| TypeOpt (value : string)
| TypeBiologicalVariation (value : string)
| ToggleCustomBoundaries (checked : bool)
| TypeMaxMu (value : string)
| TypeStepSizeMu (value : string)
| TypeMaxImprecision (value : string)
| TypeMaxBias (value : string)
| TypeStepSizeImpBias (value : string)
| ToggleSampling (dataCount : option nat) (checked : bool)
| TypeSampleSize (dataCount : option nat) (value : string).

Definition sidebar_handler (e : sidebar_event) : handler :=
  match e with
  | ChooseModel m => handleModelChange m
  | ChooseAnalyte column => onChange_analyteName column
  | TypeDecimalPlaces value => onChange_decimalPlaces value
  | OnCDL e => cdl_handler e
  | TypeMin value => onChange_min value
  | TypeDes value => onChange_des value
  | TypeOpt value => onChange_opt value
  | TypeBiologicalVariation value => onChange_biologicalVariation value
  | ToggleCustomBoundaries checked => onChange_useCustomBoundaries checked
  | TypeMaxMu value => onChange_maxMu value
  | TypeStepSizeMu value => onChange_stepSizeMu value
  | TypeMaxImprecision value => onChange_maxImprecision value
  | TypeMaxBias value => onChange_maxBias value
  | TypeStepSizeImpBias value => onChange_stepSizeImpBias value
  | ToggleSampling dataCount checked => onChange_useSampling dataCount checked
  | TypeSampleSize dataCount value => onChange_sampleSize dataCount value
  end.

(** An event can fire only on an element the sidebar has rendered (the
    measurand select is rendered when [columns] is not empty; [columns] is
    not part of the application state, so that condition is not tracked). *)
Definition sidebar_enabled (e : sidebar_event) (s : AppState) : Prop :=
  match e with
  | OnCDL e => cdl_enabled e s
  | TypeBiologicalVariation _ => showsCvInput s = true
  | TypeMaxMu _ | TypeStepSizeMu _ => showsMuBoundaries s = true
  | TypeMaxImprecision _ | TypeMaxBias _ | TypeStepSizeImpBias _ =>
      showsImpBiasBoundaries s = true
  | TypeSampleSize _ _ => showsSampleSizeInput s = true
  | _ => True
  end.

(** The states the sidebar can bring the application to; choosing a file
    ([handleUpload]) is a step too. *)
Inductive sidebar_reachable : AppState -> Prop :=
| sidebar_init : sidebar_reachable initialState
| sidebar_step (e : sidebar_event) (s : AppState) :
    sidebar_reachable s -> sidebar_enabled e s ->
    sidebar_reachable (fire (sidebar_handler e) s)
| sidebar_upload (path : string) (column : option string) (s : AppState) :
    sidebar_reachable s -> sidebar_reachable (set_file path column s).

(* ================================================================== *)
(** * The rest of [components/Results.tsx] *)
(* ================================================================== *)

(** [x] and [y] of the measurement-uncertainty branch of
    [renderScatterPlot]. *)
Definition scatter_mu_x (results : SimulationResult) (metric : Metric)
    (levelIndex : option nat) : list number :=
  map (fun d =>
         match levelIndex with
         | Some i => JS.mul (Fin (nullish (sublevel metric i d) 0)) (Fin 100)
         | None => JS.mul (Fin (overall metric d)) (Fin 100)
         end)
      (mu_data results).

Definition scatter_mu_y (results : SimulationResult) : list number :=
  map (fun d => JS.mul (Fin (mu d)) (Fin 100)) (mu_data results).

(** [x] and [y] of the standard branches of [renderScatterPlot] and
    [renderCombinedPlot]. *)
Definition plot_x (results : SimulationResult) : list number :=
  map (fun d => JS.mul (Fin (bias d)) (Fin 100)) (mu_data results).

Definition plot_y (results : SimulationResult) : list number :=
  map (fun d => JS.mul (Fin (mu d)) (Fin 100)) (mu_data results).

(** [a[i]] for an index computed at run time: [undefined] outside. *)
Definition array_get {A : Type} (a : list A) (i : Z) : option A :=
  if (i <? 0)%Z then None else nth_error a (Z.to_nat i).

Definition categoryColors (cat : string) : option string :=
  if String.eqb cat "Sensitivity & Specificity" then Some "#F4D03F"
  else if String.eqb cat "Sensitivity" then Some "#76C7C0"
  else if String.eqb cat "Specificity" then Some "#AED6F1"
  else if String.eqb cat "Other" then Some "#D7DBDD"
  else None.

(** The data of one trace of the combined plot ([name], a template string
    around the threshold, and the constant marker fields are left out). *)
Record Trace : Type := mkTrace {
  trace_cat : string;
  trace_x : list (option number);
  trace_y : list (option number);
  trace_color : option string
}.

(** The callback of [uniqueCategories.map] in [renderCombinedPlot]; [None]
    is the [null] it returns for a category with no point. *)
Definition traceOf (results : SimulationResult)
    (agreementThresholds : AgreementThresholds.t) (levelIndex : nat)
    (cat : string) : option Trace :=
  let x := plot_x results in
  let y := plot_y results in
  let indices :=
    indicesOf cat (categories results agreementThresholds levelIndex) in
  if (List.length indices =? 0)%nat then None
  else Some (mkTrace cat
                     (map (fun i => array_get x i) indices)
                     (map (fun i => array_get y i) indices)
                     (categoryColors cat)).

(** [uniqueCategories.map(...).filter(t => t !== null)]. *)
Fixpoint dropNull {A : Type} (l : list (option A)) : list A :=
  match l with
  | [] => []
  | Some a :: r => a :: dropNull r
  | None :: r => dropNull r
  end.

Definition traces (results : SimulationResult)
    (agreementThresholds : AgreementThresholds.t) (levelIndex : nat)
  : list Trace :=
  dropNull (map (traceOf results agreementThresholds levelIndex)
                uniqueCategories).

(** The "Simulation Summary" box: [sampleSize || originalData?.length || 0]
    and [Math.max(...results.mu_data.map(d => d.mu * 100)).toFixed(1)]. *)
Definition summarySampleSize (sampleSize : option number)
    (originalData : option (list Q)) : number :=
  let len := option_map (fun d => JS.of_nat (List.length d)) originalData in
  let first :=
    match sampleSize with
    | Some v => if JS.truthy v then Some v else len
    | None => len
    end in
  match first with
  | Some v => JS.or_else v (Fin 0)
  | None => Fin 0
  end.



(** The effect that initialises the sublevel tab: the value of
    [sublevelTab] after it has run. *)
Definition initSublevelTab (results : option SimulationResult)
    (sublevelTab : string) : string :=
  match results with
  | Some r =>
      match names r with
      | first :: _ => if String.eqb sublevelTab "" then first else sublevelTab
      | [] => sublevelTab
      end
  | None => sublevelTab
  end.

(** [results.names.map((name, idx) => sublevelTab === name && ...)]: the
    level indices whose panel is rendered. *)
Definition renderedLevels (names : list string) (sublevelTab : string)
  : list nat :=
  dropNull (mapi_from (fun name idx =>
                         if String.eqb sublevelTab name then Some idx
                         else None)
                      names 0%nat).

(** Whether the combined plot puts grid point [d] in category [cat]. *)
Definition in_category (agreementThresholds : AgreementThresholds.t)
    (levelIndex : nat) (cat : string) (d : SimulationPoint) : bool :=
  String.eqb (categoryOf agreementThresholds levelIndex d) cat.

(** What every state the sidebar can reach satisfies. *)
Definition settings_ok (s : AppState) : Prop :=
  (1 <= List.length (cdls s) <= 7)%nat /\
  Forall (fun c => JS.isNaN c = false) (cdls s) /\
  JS.leb (maxMu s) (Fin 33.3) = true /\
  JS.leb (maxImprecision s) (Fin 33.3) = true /\
  JS.leb (maxBias s) (Fin 100) = true /\
  JS.truthy (stepSizeMu s) = true /\
  JS.truthy (stepSizeImpBias s) = true /\
  JS.isNaN (biologicalVariation s) = false /\
  JS.isInteger (decimalPlaces s) = true /\
  (forall v, sampleSize s = Some v -> JS.isInteger v = true).

(** ** More concrete inputs *)

(** A backend on which [listen] rejects. *)
Definition deafBackend : Backend :=
  mkBackend (inl "event system unavailable") (fun _ _ => inr [1; 2; 3])
            (fun _ => inr (grid [point 0 0 1 1 1])) (fun _ => []).

(** A backend on which the column cannot be loaded. *)
Definition unreadableBackend : Backend :=
  mkBackend (inr tt) (fun _ _ => inl "column not found")
            (fun _ => inr (grid [point 0 0 1 1 1])) (fun _ => []).

Definition initialShell : Shell := mkShell initialState [] [].

(** The user picks a file with two columns. *)
Definition pickedDialog : FileDialog :=
  mkFileDialog (inr (Some "/home/lab/glucose.csv"))
               (fun _ => inr ["glucose"; "age"]).

(** The user picks a file that cannot be read. *)
Definition unreadableDialog : FileDialog :=
  mkFileDialog (inr (Some "/home/lab/notes.txt"))
               (fun _ => inl "unsupported file").

(** The state after ticking "Adjust Simulation Boundaries" and typing 50
    into "Max Measurement Uncertainty (%)". *)
Definition typed50 : AppState :=
  fire (sidebar_handler (TypeMaxMu "50"))
       (fire (sidebar_handler (ToggleCustomBoundaries true)) initialState).

Section NumberFacts.

Lemma Qltb_lt (a b : Q) : JS.Qltb a b = true <-> a < b.
Proof.
  unfold JS.Qltb. rewrite negb_true_iff.
  split; intro H.
  - apply Qnot_le_lt. intro Hle. apply Qle_bool_iff in Hle. congruence.
  - destruct (Qle_bool b a) eqn:E; [|reflexivity].
    apply Qle_bool_iff in E. exfalso. exact (Qlt_not_le _ _ H E).
Qed.

Lemma Qltb_ge (a b : Q) : JS.Qltb a b = false <-> b <= a.
Proof.
  unfold JS.Qltb. rewrite negb_false_iff. apply Qle_bool_iff.
Qed.

Lemma Qltb_irrefl (a : Q) : JS.Qltb a a = false.
Proof. apply Qltb_ge. apply Qle_refl. Qed.

Lemma ltb_Fin (a b : Q) : JS.ltb (Fin a) (Fin b) = true <-> a < b.
Proof. apply Qltb_lt. Qed.

Lemma leb_Fin (a b : Q) : JS.leb (Fin a) (Fin b) = true <-> a <= b.
Proof.
  cbn. rewrite negb_true_iff. apply Qltb_ge.
Qed.

Lemma geb_Fin (a b : Q) : JS.geb (Fin a) (Fin b) = true <-> b <= a.
Proof. apply leb_Fin. Qed.

Lemma gtb_Fin (a b : Q) : JS.gtb (Fin a) (Fin b) = true <-> b < a.
Proof. apply ltb_Fin. Qed.




(** [Math.min(val, cap)] never exceeds a finite [cap], whatever non-NaN
    [val] is. *)
Lemma Math_min_cap (val : number) (cap : Q) :
  JS.isNaN val = false ->
  JS.leb (JS.Math_min [val; Fin cap]) (Fin cap) = true.
Proof.
  destruct val as [|[]|a]; cbn; try discriminate; intros _.
  - reflexivity.
  - now rewrite Qltb_irrefl.
  - destruct (JS.Qltb cap a) eqn:E; cbn.
    + now rewrite Qltb_irrefl.
    + now rewrite E.
Qed.

(** [Math.min(val, cap)] is [val] or [cap]. *)
Lemma Math_min_pair (val cap : number) :
  JS.isNaN val = false -> JS.isNaN cap = false ->
  JS.Math_min [val; cap] = val \/ JS.Math_min [val; cap] = cap.
Proof.
  destruct val as [|[]|a], cap as [|[]|c]; cbn; try discriminate; intros _ _;
    auto.
  destruct (JS.Qltb c a); cbn; auto.
Qed.

Lemma parseInt_integer (s : string) :
  JS.parseInt s = NaN \/ exists z : Z, JS.parseInt s = Fin (inject_Z z).
Proof.
  unfold JS.parseInt.
  destruct (JS.readSign _) as [neg l1].
  match goal with
  | |- context [ let '(radix, l2) := ?e in _ ] => destruct e as [radix l2]
  end.
  destruct (JS.takeWhile _ _); [left; reflexivity|right; eauto].
Qed.

Lemma isInteger_inject_Z (z : Z) : JS.isInteger (Fin (inject_Z z)) = true.
Proof. cbn. rewrite Z.mod_1_r. reflexivity. Qed.

(** [toFixed] rounds to the nearest multiple of [10^-f], upwards on a tie:
    the integer it prints satisfies [n - 1/2 <= a * 10^f < n + 1/2]. *)
Lemma round_scaled_nearest (f : nat) (a : Q) :
  let n := JS.round_scaled f a in
  let p := (10 ^ Z.of_nat f)%Z in
  (2 * Zpos (Qden a) * n <= 2 * p * Qnum a + Zpos (Qden a)
   < 2 * Zpos (Qden a) * (n + 1))%Z.
Proof.
  cbv zeta. unfold JS.round_scaled.
  set (p := (10 ^ Z.of_nat f)%Z).
  set (m := (2 * p * Qnum a + Zpos (Qden a))%Z).
  set (k := (2 * Zpos (Qden a))%Z).
  assert (Hk : (0 < k)%Z) by (unfold k; lia).
  split.
  - apply Z.mul_div_le. exact Hk.
  - rewrite Z.add_1_r. apply Z.mul_succ_div_gt. exact Hk.
Qed.

End NumberFacts.

(* ================================================================== *)
(** * [Math.max] and [Math.min] over finite values *)
(* ================================================================== *)

Section Extrema.

Context {A : Type} (f : A -> Q).

Lemma fold_max2_Fin (l : list A) : forall a : A,
  exists d, In d (a :: l) /\
    fold_left JS.max2 (map (fun d => Fin (f d)) l) (Fin (f a)) = Fin (f d) /\
    forall d', In d' (a :: l) -> f d' <= f d.
Proof.
  induction l as [|x l IH]; intro a.
  - exists a. repeat split; [now left|].
    intros d' [<-|[]]. apply Qle_refl.
  - cbn [map fold_left JS.max2 JS.ltb].
    destruct (JS.Qltb (f a) (f x)) eqn:E.
    + destruct (IH x) as (d & Hin & Heq & Hub).
      exists d. repeat split; [now right|exact Heq|].
      intros d' [<-|Hd']; [|now apply Hub].
      apply Qltb_lt in E. apply Qlt_le_weak.
      eapply Qlt_le_trans; [exact E|]. apply Hub. now left.
    + destruct (IH a) as (d & Hin & Heq & Hub).
      exists d. repeat split.
      * destruct Hin as [<-|Hin]; [now left|now right; right].
      * exact Heq.
      * intros d' [<-|[<-|Hd']].
        -- apply Hub. now left.
        -- apply Qltb_ge in E. eapply Qle_trans; [exact E|].
           apply Hub. now left.
        -- apply Hub. now right.
Qed.

Lemma fold_min2_Fin (l : list A) : forall a : A,
  exists d, In d (a :: l) /\
    fold_left JS.min2 (map (fun d => Fin (f d)) l) (Fin (f a)) = Fin (f d) /\
    forall d', In d' (a :: l) -> f d <= f d'.
Proof.
  induction l as [|x l IH]; intro a.
  - exists a. repeat split; [now left|].
    intros d' [<-|[]]. apply Qle_refl.
  - cbn [map fold_left JS.min2 JS.ltb].
    destruct (JS.Qltb (f x) (f a)) eqn:E.
    + destruct (IH x) as (d & Hin & Heq & Hlb).
      exists d. repeat split; [now right|exact Heq|].
      intros d' [<-|Hd']; [|now apply Hlb].
      apply Qltb_lt in E. apply Qlt_le_weak.
      eapply Qle_lt_trans; [|exact E]. apply Hlb. now left.
    + destruct (IH a) as (d & Hin & Heq & Hlb).
      exists d. repeat split.
      * destruct Hin as [<-|Hin]; [now left|now right; right].
      * exact Heq.
      * intros d' [<-|[<-|Hd']].
        -- apply Hlb. now left.
        -- apply Qltb_ge in E. eapply Qle_trans; [|exact E].
           apply Hlb. now left.
        -- apply Hlb. now right.
Qed.

(** On a non-empty list of finite values [Math.max] is the value at one of
    the elements, and no element has a larger one. *)
Lemma Math_max_Fin (l : list A) :
  l <> [] ->
  exists d, In d l /\
    JS.Math_max (map (fun d => Fin (f d)) l) = Fin (f d) /\
    forall d', In d' l -> f d' <= f d.
Proof.
  destruct l as [|a l]; [congruence|intros _].
  unfold JS.Math_max. cbn [map fold_left JS.max2 JS.ltb].
  apply fold_max2_Fin.
Qed.

Lemma Math_min_Fin (l : list A) :
  l <> [] ->
  exists d, In d l /\
    JS.Math_min (map (fun d => Fin (f d)) l) = Fin (f d) /\
    forall d', In d' l -> f d <= f d'.
Proof.
  destruct l as [|a l]; [congruence|intros _].
  unfold JS.Math_min. cbn [map fold_left JS.min2 JS.ltb].
  apply fold_min2_Fin.
Qed.

End Extrema.

(* ================================================================== *)
(** * Properties of [App.tsx] *)
(* ================================================================== *)

(** C8. The initial application state carries the documented grid
    defaults: [maxMu] 33.1 and [stepSizeMu] 0.1 for the
    measurement-uncertainty variants, [maxImprecision] 33.3, [maxBias] 35
    and [stepSizeImpBias] 1.0 for the imprecision-and-bias variants, and the
    agreement thresholds min 90, des 95, opt 99. *)
Theorem initialState_defaults :
  maxMu initialState = Fin 33.1 /\
  stepSizeMu initialState = Fin 0.1 /\
  maxImprecision initialState = Fin 33.3 /\
  maxBias initialState = Fin 35 /\
  stepSizeImpBias initialState = Fin 1.0 /\
  agreementThresholds initialState
    = AgreementThresholds.mk (Fin 90) (Fin 95) (Fin 99).
Proof. repeat split. Qed.

(** Until "Adjust Simulation Boundaries" is ticked none of these values is
    sent: the configuration carries [null] for every boundary. *)
Lemma initialState_sends_no_boundary (data : list Q) :
  SimulationConfig.max_mu (mkConfig initialState data) = None /\
  SimulationConfig.step_size_mu (mkConfig initialState data) = None /\
  SimulationConfig.max_imprecision (mkConfig initialState data) = None /\
  SimulationConfig.max_bias (mkConfig initialState data) = None /\
  SimulationConfig.step_size_imp_bias (mkConfig initialState data) = None.
Proof. repeat split. Qed.

Section HandleSimulate.

Variable B : Backend.
Variable state : AppState.

Lemma deliver_frame (events : list number) (ui : UI) :
  exists p,
    deliver events ui =
    (Returned tt,
     mkUI (results ui) (originalData ui) (isSimulating ui) p
          (alerts ui) (listeners ui) (sent ui)).
Proof.
  revert ui. induction events as [|e rest IH]; intro ui.
  - exists (progress ui). destruct ui; reflexivity.
  - cbn. unfold bind. cbn.
    destruct (IH (mkUI (results ui) (originalData ui) (isSimulating ui) e
                       (alerts ui) (listeners ui) (sent ui))) as [p Hp].
    exists p. rewrite Hp. reflexivity.
Qed.

(** Every call of [handleSimulate] terminates in one of the five shapes. *)
Lemma handleSimulate_shape (ui : UI) :
  run_shape B state ui (snd (handleSimulate B state ui)).
Proof.
  unfold handleSimulate.
  destruct (falsy (filePath state) || falsy (analyteName state))%bool eqn:G.
  - apply shape_guard; [exact G|reflexivity].
  - unfold bind, listen, await, bind. cbn.
    destruct (listen_result B) as [e|[]] eqn:L; cbn.
    + eapply shape_listen_rejected; eauto.
    + unfold try_catch_finally, bind, invoke_run, bind. cbn.
      destruct (load_column_data B (unwrap (filePath state))
                  (unwrap (analyteName state))) as [e|data] eqn:Ld; cbn.
      * eapply shape_load_rejected; eauto.
      * match goal with
        | |- context [deliver ?ev ?u] =>
            destruct (deliver_frame ev u) as [p Hp]; rewrite Hp
        end. cbn.
        destruct (run_simulation_async B (mkConfig state data)) as [e|r] eqn:R;
          cbn.
        -- eapply shape_run_rejected; eauto.
        -- eapply shape_run_resolved; eauto.
Qed.

End HandleSimulate.

(** C3. When the simulation invocation rejects, the displayed results keep
    the value they had before the call; [handleSimulate] replaces them only
    by the complete [SimulationResult] the invocation resolved with. *)
Theorem handleSimulate_results_all_or_nothing :
  forall (B : Backend) (state : AppState) (ui : UI),
    let ui' := snd (handleSimulate B state ui) in
    (forall data error,
        load_column_data B (unwrap (filePath state))
                           (unwrap (analyteName state)) = inr data ->
        run_simulation_async B (mkConfig state data) = inl error ->
        results ui' = results ui) /\
    (results ui' = results ui \/
     exists data result,
       load_column_data B (unwrap (filePath state))
                          (unwrap (analyteName state)) = inr data /\
       run_simulation_async B (mkConfig state data) = inr result /\
       results ui' = Some result).
Proof.
  intros B state ui ui'.
  pose proof (handleSimulate_shape B state ui) as S. fold ui' in S.
  split.
  - intros data error Hload Hrun.
    destruct S as [_ ->| | | |data' result _ Hload' Hrun' _ _ _ _];
      try assumption; try reflexivity.
    rewrite Hload in Hload'. injection Hload' as <-.
    rewrite Hrun in Hrun'. discriminate Hrun'.
  - destruct S as [_ ->| | | |data result _ Hload Hrun Hres _ _ _];
      try (left; assumption); try (left; reflexivity).
    right. exists data, result. auto.
Qed.

Lemma handleSimulate_results_all_or_nothing_witness :
  let ui := mkUI (Some (grid [point 0 0 1 1 1])) None false (Fin 0) [] 0 [] in
  load_column_data failingBackend (unwrap (filePath loadedState))
                   (unwrap (analyteName loadedState)) = inr [1; 2; 3] /\
  run_simulation_async failingBackend (mkConfig loadedState [1; 2; 3])
    = inl "dataset is empty" /\
  results (snd (handleSimulate failingBackend loadedState ui)) = results ui.
Proof.
  intro ui. split; [reflexivity|split; [reflexivity|]].
  exact (proj1 (handleSimulate_results_all_or_nothing
                  failingBackend loadedState ui)
               [1; 2; 3] "dataset is empty" eq_refl eq_refl).
Defined.

Example handleSimulate_failing :
  snd (handleSimulate failingBackend loadedState emptyUI)
  = mkUI None (Some [1; 2; 3]) false (Fin 50)
         ["Simulation failed: dataset is empty"] 0
         [mkConfig loadedState [1; 2; 3]].
Proof. reflexivity. Qed.

Example handleSimulate_working :
  snd (handleSimulate workingBackend loadedState emptyUI)
  = mkUI (Some (grid [point 0 0 1 1 1])) (Some [1; 2; 3]) false (Fin 100)
         [] 0 [mkConfig loadedState [1; 2; 3]].
Proof. reflexivity. Qed.

(** C4. In the configuration sent across the invocation boundary, [cv_i] is
    present iff the configured [biologicalVariation] is strictly greater
    than 0, and a present [cv_i] is that value, hence [> 0]; this holds of
    [mkConfig] and so of every configuration a call of [handleSimulate]
    sends. *)
Theorem cv_i_present_iff_positive :
  forall (state : AppState),
    (forall data,
        let c := mkConfig state data in
        (SimulationConfig.cv_i c <> None <->
         JS.gtb (biologicalVariation state) (Fin 0) = true) /\
        (forall v, SimulationConfig.cv_i c = Some v ->
                   v = biologicalVariation state /\
                   JS.gtb v (Fin 0) = true)) /\
    (forall (B : Backend) (ui : UI),
        let ui' := snd (handleSimulate B state ui) in
        sent ui' = sent ui \/
        exists data, sent ui' = (sent ui ++ [mkConfig state data])%list).
Proof.
  intro state. split.
  - intros data c. subst c. unfold mkConfig. cbn [SimulationConfig.cv_i].
    destruct (JS.gtb (biologicalVariation state) (Fin 0)) eqn:E; split.
    + split; [reflexivity|discriminate].
    + intros v Hv. injection Hv as <-. now split.
    + split; [congruence|discriminate].
    + discriminate.
  - intros B ui ui'.
    pose proof (handleSimulate_shape B state ui) as S. fold ui' in S.
    destruct S as [_ ->| | | |]; eauto.
Qed.

Lemma cv_i_present_iff_positive_witness :
  SimulationConfig.cv_i
    (mkConfig (set_biologicalVariation (Fin 4.5) loadedState) [1; 2; 3])
    = Some (Fin 4.5) /\
  JS.gtb (Fin 4.5) (Fin 0) = true.
Proof.
  split; [reflexivity|].
  exact (proj2 (proj2 (proj1 (cv_i_present_iff_positive
           (set_biologicalVariation (Fin 4.5) loadedState)) [1; 2; 3])
         (Fin 4.5) eq_refl)).
Defined.

(* ================================================================== *)
(** * Properties of [components/Sidebar.tsx] *)
(* ================================================================== *)

Section Overrides.

Variable value : string.
Variables state prev : AppState.

Lemma onChange_maxMu_stored :
  maxMu (onChange_maxMu value state prev)
  = if JS.isNaN (JS.parseFloat value) then Fin 0
    else JS.Math_min [JS.parseFloat value; Fin 33.3].
Proof.
  unfold onChange_maxMu. destruct (JS.isNaN (JS.parseFloat value)); reflexivity.
Qed.

Lemma onChange_maxImprecision_stored :
  maxImprecision (onChange_maxImprecision value state prev)
  = if JS.isNaN (JS.parseFloat value) then Fin 0
    else JS.Math_min [JS.parseFloat value; Fin 33.3].
Proof.
  unfold onChange_maxImprecision.
  destruct (JS.isNaN (JS.parseFloat value)); reflexivity.
Qed.

Lemma onChange_maxBias_stored :
  maxBias (onChange_maxBias value state prev)
  = if JS.isNaN (JS.parseFloat value) then Fin 0
    else JS.Math_min [JS.parseFloat value; Fin 100].
Proof.
  unfold onChange_maxBias.
  destruct (JS.isNaN (JS.parseFloat value)); reflexivity.
Qed.

Lemma capped (val : number) (cap : Q) :
  0 <= cap ->
  JS.leb (if JS.isNaN val then Fin 0 else JS.Math_min [val; Fin cap])
         (Fin cap) = true.
Proof.
  intro Hcap. destruct (JS.isNaN val) eqn:E.
  - now apply leb_Fin.
  - now apply Math_min_cap.
Qed.

End Overrides.

(** C5 (amended). After any invocation of a boundary-override change
    handler the stored override does not exceed its hard cap: [maxMu] and
    [maxImprecision] are at most 33.3 and [maxBias] is at most 100.  The
    stored value is 0 when the input does not parse as a number and the
    smaller of the parsed value and the cap when it does. *)
Theorem override_within_cap :
  forall (value : string) (state prev : AppState),
    JS.leb (maxMu (onChange_maxMu value state prev)) (Fin 33.3) = true /\
    JS.leb (maxImprecision (onChange_maxImprecision value state prev))
           (Fin 33.3) = true /\
    JS.leb (maxBias (onChange_maxBias value state prev)) (Fin 100) = true /\
    maxMu (onChange_maxMu value state prev)
      = (if JS.isNaN (JS.parseFloat value) then Fin 0
         else JS.Math_min [JS.parseFloat value; Fin 33.3]) /\
    maxImprecision (onChange_maxImprecision value state prev)
      = (if JS.isNaN (JS.parseFloat value) then Fin 0
         else JS.Math_min [JS.parseFloat value; Fin 33.3]) /\
    maxBias (onChange_maxBias value state prev)
      = (if JS.isNaN (JS.parseFloat value) then Fin 0
         else JS.Math_min [JS.parseFloat value; Fin 100]).
Proof.
  intros value state prev.
  rewrite onChange_maxMu_stored, onChange_maxImprecision_stored,
    onChange_maxBias_stored.
  split; [|split; [|split; [|split; [|split]]]]; try reflexivity;
    apply capped; discriminate.
Qed.

(** C5 as stated fails: clearing the field stores 0, and a negative entry is
    stored as it is; neither is positive. *)
Lemma override_not_always_positive :
  ~ (forall (value : string) (s : AppState),
        JS.gtb (maxMu (fire (onChange_maxMu value) s)) (Fin 0) = true /\
        JS.leb (maxMu (fire (onChange_maxMu value) s)) (Fin 33.3) = true).
Proof.
  intro H. destruct (H "" initialState) as [Hpos _].
  vm_compute in Hpos. discriminate Hpos.
Qed.

Example override_examples :
  maxMu (fire (onChange_maxMu "") initialState) = Fin 0 /\
  maxMu (fire (onChange_maxMu "-5") initialState) = Fin (-5) /\
  maxMu (fire (onChange_maxMu "50") initialState) = Fin 33.3 /\
  maxBias (fire (onChange_maxBias "-20") initialState) = Fin (-20) /\
  maxBias (fire (onChange_maxBias "250") initialState) = Fin 100.
Proof. repeat split. Qed.

(** The threshold inputs have no fallback: clearing one stores NaN, against
    which every comparison of [Results] is false. *)
Example threshold_can_be_NaN :
  AgreementThresholds.min
    (agreementThresholds (fire (onChange_min "") initialState)) = NaN /\
  getLimit grid_mu Agreement None NaN Mu = "NO".
Proof. split; reflexivity. Qed.

(** C6 (amended). While a dataset of [n >= 1] elements is loaded, every
    value entered through the sample-size input leaves a stored sample size
    that is present, an integer, and at most [n]: 0 when the input does not
    parse, otherwise the smaller of the parsed integer and [n]. *)
Theorem sampleSize_integer_at_most_n :
  forall (n : nat) (value : string) (state prev : AppState),
    (1 <= n)%nat ->
    exists v,
      sampleSize (onChange_sampleSize (Some n) value state prev) = Some v /\
      JS.isInteger v = true /\
      JS.leb v (JS.of_nat n) = true /\
      v = (if JS.isNaN (JS.parseInt value) then Fin 0
           else JS.Math_min [JS.parseInt value; JS.of_nat n]).
Proof.
  intros n value state prev Hn.
  assert (Hmax : dataCount_or (Some n) (Infinity false) = JS.of_nat n).
  { unfold dataCount_or, JS.or_else, JS.of_nat, JS.truthy, JS.Qis_zero. cbn.
    destruct (Z.of_nat n =? 0)%Z eqn:E; [|reflexivity].
    apply Z.eqb_eq in E. lia. }
  unfold onChange_sampleSize. rewrite Hmax.
  destruct (parseInt_integer value) as [Hp|[z Hp]]; rewrite Hp; cbn [JS.isNaN negb].
  - exists (Fin 0). repeat split.
    apply leb_Fin. unfold Qle; cbn. lia.
  - eexists. split; [reflexivity|]. split; [|split; [|reflexivity]].
    + destruct (Math_min_pair (Fin (inject_Z z)) (JS.of_nat n) eq_refl eq_refl)
        as [-> | ->]; apply isInteger_inject_Z.
    + now apply Math_min_cap.
Qed.

Lemma sampleSize_integer_at_most_n_witness :
  (1 <= 10)%nat /\
  exists v,
    sampleSize (onChange_sampleSize (Some 10%nat) "25" loadedState loadedState)
      = Some v /\
    JS.isInteger v = true /\
    JS.leb v (JS.of_nat 10) = true /\
    v = (if JS.isNaN (JS.parseInt "25") then Fin 0
         else JS.Math_min [JS.parseInt "25"; JS.of_nat 10]).
Proof.
  split; [lia|].
  apply (sampleSize_integer_at_most_n 10 "25" loadedState loadedState). lia.
Defined.

(** C6 as stated fails: clearing the field of a 10-element dataset stores
    0, which is below 1. *)
Lemma sampleSize_can_be_below_one :
  ~ (forall (n : nat) (value : string) (s : AppState),
        (1 <= n)%nat ->
        forall v, sampleSize (fire (onChange_sampleSize (Some n) value) s)
                  = Some v ->
                  JS.isInteger v = true /\
                  JS.leb (Fin 1) v = true /\
                  JS.leb v (JS.of_nat n) = true).
Proof.
  intro H.
  destruct (H 10%nat "" loadedState ltac:(lia) (Fin 0) eq_refl)
    as (_ & Hlow & _).
  vm_compute in Hlow. discriminate Hlow.
Qed.

Example sampleSize_examples :
  sampleSize (fire (onChange_sampleSize (Some 10%nat) "") loadedState)
    = Some (Fin 0) /\
  sampleSize (fire (onChange_sampleSize (Some 10%nat) "-3") loadedState)
    = Some (Fin (-3)) /\
  sampleSize (fire (onChange_sampleSize (Some 10%nat) "25") loadedState)
    = Some (Fin 10) /\
  sampleSize (fire (onChange_sampleSize (Some 10%nat) "5") loadedState)
    = Some (Fin 5).
Proof. repeat split. Qed.

Section DecisionLimits.

Lemma addCDL_cdls (s : AppState) :
  cdls (fire addCDL s)
  = if (List.length (cdls s) <? 7)%nat then (cdls s ++ [Fin 0])%list
    else cdls s.
Proof.
  unfold fire, addCDL. destruct (List.length (cdls s) <? 7)%nat; reflexivity.
Qed.

Lemma removeCDL_cdls (s : AppState) :
  cdls (fire removeCDL s)
  = if (1 <? List.length (cdls s))%nat then removelast (cdls s)
    else cdls s.
Proof.
  unfold fire, removeCDL. destruct (1 <? List.length (cdls s))%nat; reflexivity.
Qed.

Lemma length_removelast {A : Type} (l : list A) :
  List.length (removelast l) = pred (List.length l).
Proof.
  induction l as [|a [|b l] IH]; [reflexivity|reflexivity|].
  change (removelast (a :: b :: l)) with (a :: removelast (b :: l)).
  cbn [List.length]. rewrite IH. reflexivity.
Qed.

Lemma length_array_set (a : list number) (index : nat) (value : number) :
  List.length (array_set a index value) = List.length a.
Proof.
  revert index. induction a as [|x a IH]; intros [|i]; cbn; auto.
Qed.

Lemma addCDL_length (s : AppState) :
  List.length (cdls (fire addCDL s))
  = if (List.length (cdls s) <? 7)%nat then S (List.length (cdls s))
    else List.length (cdls s).
Proof.
  rewrite addCDL_cdls. destruct (List.length (cdls s) <? 7)%nat;
    [|reflexivity].
  rewrite length_app. cbn. lia.
Qed.

Lemma removeCDL_length (s : AppState) :
  List.length (cdls (fire removeCDL s))
  = if (1 <? List.length (cdls s))%nat then pred (List.length (cdls s))
    else List.length (cdls s).
Proof.
  rewrite removeCDL_cdls. destruct (1 <? List.length (cdls s))%nat;
    [|reflexivity].
  apply length_removelast.
Qed.

Lemma cdl_step_bounds (e : cdl_event) (s : AppState) :
  (1 <= List.length (cdls s) <= 7)%nat ->
  (1 <= List.length (cdls (fire (cdl_handler e) s)) <= 7)%nat.
Proof.
  intro H. destruct e as [| |index value]; cbn [cdl_handler].
  - rewrite addCDL_length.
    destruct (List.length (cdls s) <? 7)%nat eqn:E; [|lia].
    apply Nat.ltb_lt in E. lia.
  - rewrite removeCDL_length.
    destruct (1 <? List.length (cdls s))%nat eqn:E; [|lia].
    apply Nat.ltb_lt in E. lia.
  - unfold fire, updateCDL. cbn. now rewrite length_array_set.
Qed.

(** From the initial state, whatever the user clicks and types, the number
    of decision limits stays in [1, 7]. *)
Lemma cdl_count_invariant (s : AppState) :
  cdl_reachable s -> (1 <= List.length (cdls s) <= 7)%nat.
Proof.
  induction 1 as [|e s _ IH _].
  - cbn. lia.
  - now apply cdl_step_bounds.
Qed.

End DecisionLimits.

(** C7. On a state whose decision-limit list has between 1 and 7 entries,
    [addCDL] and [removeCDL] keep the count in that range: [addCDL] appends
    an entry (the value 0) only when the length is strictly below 7,
    [removeCDL] drops the last entry only when the length is strictly above
    1, and otherwise each leaves the list as it is. *)
Theorem cdl_count_preserved :
  forall s : AppState,
    (1 <= List.length (cdls s) <= 7)%nat ->
    (1 <= List.length (cdls (fire addCDL s)) <= 7)%nat /\
    (1 <= List.length (cdls (fire removeCDL s)) <= 7)%nat /\
    cdls (fire addCDL s)
      = (if (List.length (cdls s) <? 7)%nat then (cdls s ++ [Fin 0])%list
         else cdls s) /\
    cdls (fire removeCDL s)
      = (if (1 <? List.length (cdls s))%nat then removelast (cdls s)
         else cdls s).
Proof.
  intros s H.
  split; [exact (cdl_step_bounds ClickAdd s H)|].
  split; [exact (cdl_step_bounds ClickRemove s H)|].
  split; [apply addCDL_cdls|apply removeCDL_cdls].
Qed.

Lemma cdl_count_preserved_witness :
  (1 <= List.length (cdls initialState) <= 7)%nat /\
  (1 <= List.length (cdls (fire addCDL initialState)) <= 7)%nat /\
  (1 <= List.length (cdls (fire removeCDL initialState)) <= 7)%nat.
Proof.
  assert (H : (1 <= List.length (cdls initialState) <= 7)%nat)
    by (cbn; lia).
  split; [exact H|].
  pose proof (cdl_count_preserved initialState H) as (Ha & Hr & _).
  split; assumption.
Defined.

Example cdl_examples :
  cdls (fire addCDL initialState) = [Fin 0; Fin 0] /\
  cdls (fire removeCDL initialState) = [Fin 0] /\
  cdls (fire removeCDL (fire addCDL initialState)) = [Fin 0] /\
  List.length
    (cdls (fire addCDL (fire addCDL (fire addCDL (fire addCDL
       (fire addCDL (fire addCDL (fire addCDL initialState)))))))) = 7%nat.
Proof. repeat split. Qed.

(* ================================================================== *)
(** * Properties of [components/Results.tsx] *)
(* ================================================================== *)

Section GetLimit.

Variable results : SimulationResult.
Variable metric : Metric.
Variable levelIndex : option nat.
Variable threshold : number.

Lemma validPoints_kept (d : SimulationPoint) :
  In d (validPoints results metric levelIndex threshold)
  <-> kept results metric levelIndex threshold d.
Proof. unfold validPoints, kept. apply filter_In. Qed.

Lemma validPoints_nil :
  (forall d, ~ kept results metric levelIndex threshold d) ->
  validPoints results metric levelIndex threshold = [].
Proof.
  intro H.
  destruct (validPoints results metric levelIndex threshold) as [|d l] eqn:E;
    [reflexivity|].
  exfalso. apply (H d). apply validPoints_kept. rewrite E. now left.
Qed.

Lemma validPoints_cons :
  (exists d, kept results metric levelIndex threshold d) ->
  validPoints results metric levelIndex threshold <> [].
Proof.
  intros [d Hd] E. apply validPoints_kept in Hd. rewrite E in Hd.
  destruct Hd.
Qed.

(** What [getLimit] computes once a point is kept: the value at an
    extremal kept point, cut off or printed. *)
Lemma getLimit_extremal (type : LimitType) :
  (exists d, kept results metric levelIndex threshold d) ->
  exists d,
    extremal results metric levelIndex threshold type d /\
    extremum results metric levelIndex threshold type
      = Fin (column_pct type d) /\
    getLimit results metric levelIndex threshold type
      = if beyond_cutoff type (column_pct type d) then "NA"
        else JS.toFixed 1 (Fin (column_pct type d)).
Proof.
  intro Hex. pose proof (validPoints_cons Hex) as Hne.
  unfold getLimit, extremum, extremal.
  destruct (validPoints results metric levelIndex threshold) as [|p l] eqn:E;
    [congruence|].
  cbn [List.length Nat.eqb].
  destruct type.
  - destruct (Math_max_Fin (fun d => mu d * 100) (p :: l) Hne)
      as (d & Hin & Heq & Hub).
    change (map (fun d => JS.mul (Fin (mu d)) (Fin 100)) (p :: l))
      with (map (fun d => Fin (mu d * 100)) (p :: l)).
    rewrite Heq. exists d. rewrite <- E in Hin, Hub.
    repeat split; try (apply validPoints_kept; exact Hin).
    intros d' Hd'. apply Hub. now apply validPoints_kept.
  - destruct (Math_max_Fin (fun d => bias d * 100) (p :: l) Hne)
      as (d & Hin & Heq & Hub).
    change (map (fun d => JS.mul (Fin (bias d)) (Fin 100)) (p :: l))
      with (map (fun d => Fin (bias d * 100)) (p :: l)).
    rewrite Heq. exists d. rewrite <- E in Hin, Hub.
    repeat split; try (apply validPoints_kept; exact Hin).
    intros d' Hd'. apply Hub. now apply validPoints_kept.
  - destruct (Math_min_Fin (fun d => bias d * 100) (p :: l) Hne)
      as (d & Hin & Heq & Hlb).
    change (map (fun d => JS.mul (Fin (bias d)) (Fin 100)) (p :: l))
      with (map (fun d => Fin (bias d * 100)) (p :: l)).
    rewrite Heq. exists d. rewrite <- E in Hin, Hlb.
    repeat split; try (apply validPoints_kept; exact Hin).
    intros d' Hd'. apply Hlb. now apply validPoints_kept.
Qed.




End GetLimit.



Example getLimit_grid_mu :
  getLimit grid_mu Agreement None (Fin 90) Mu = "10.0" /\
  getLimit grid_mu Agreement None (Fin 95) Mu = "5.0" /\
  getLimit grid_mu Agreement None (Fin 99) Mu = "NO".
Proof. repeat split. Qed.


Example getLimit_grid_mu35 :
  validPoints grid_mu35 Agreement None (Fin 90) = [point 0.35 0 1 1 1] /\
  getLimit grid_mu35 Agreement None (Fin 90) Mu = "NA" /\
  getLimit_as_specified grid_mu35 Agreement None (Fin 90) Mu = "35.0".
Proof. repeat split. Qed.





Section Buckets.

Variable usePastelColors : bool.
Variable th : AgreementThresholds.t.

Ltac by_cases :=
  unfold colorOf; cbv zeta;
  repeat match goal with
         | |- context [JS.geb ?v ?t] => destruct (JS.geb v t)
         end;
  destruct usePastelColors; cbn;
  repeat split; intros; 
  repeat match goal with H : _ /\ _ |- _ => destruct H end;
  try discriminate; try reflexivity.

(** C2. The marker colour buckets a percentage against the thresholds in
    descending order: optimal iff [val >= opt]; else desirable iff
    [val >= des]; else minimum iff [val >= min]; else below-min.  With
    thresholds 90 / 95 / 99, a grid point whose agreement is 0.80 is in the
    below-min bucket. *)
Theorem colorOf_buckets :
  (forall val : number,
      let c := colorOf usePastelColors th val in
      let ge_opt := JS.geb val (AgreementThresholds.opt th) in
      let ge_des := JS.geb val (AgreementThresholds.des th) in
      let ge_min := JS.geb val (AgreementThresholds.min th) in
      (c = bucket_color usePastelColors Optimal <-> ge_opt = true) /\
      (c = bucket_color usePastelColors Desirable <->
         ge_opt = false /\ ge_des = true) /\
      (c = bucket_color usePastelColors Minimum <->
         ge_opt = false /\ ge_des = false /\ ge_min = true) /\
      (c = bucket_color usePastelColors BelowMin <->
         ge_opt = false /\ ge_des = false /\ ge_min = false)) /\
  (forall mu bias sens spec c1 c2 c3 l1 l2 l3 names,
      scatter_colors
        (mkResult [mkPoint mu bias 0.80 sens spec c1 c2 c3 l1 l2 l3] names)
        (AgreementThresholds.mk (Fin 90) (Fin 95) (Fin 99))
        Agreement None usePastelColors
      = [bucket_color usePastelColors BelowMin]).
Proof.
  split.
  - intro val. cbv zeta. by_cases.
  - intros. destruct usePastelColors; reflexivity.
Qed.

End Buckets.

Section Categories.

Variable th : AgreementThresholds.t.
Variable levelIndex : nat.

Lemma categoryOf_cases (d : SimulationPoint) :
  let sens := metricPct Sensitivity (Some levelIndex) d in
  let spec := metricPct Specificity (Some levelIndex) d in
  let min := AgreementThresholds.min th in
  categoryOf th levelIndex d =
    if JS.geb sens min
    then if JS.geb spec min then "Sensitivity & Specificity" else "Sensitivity"
    else if JS.geb spec min then "Specificity" else "Other".
Proof.
  cbv zeta. unfold categoryOf, metricPct, metricVal, sublevel.
  destruct (JS.geb _ _), (JS.geb _ _); reflexivity.
Qed.


End Categories.

Section Traces.



End Traces.



Example categories_example :
  categories (grid [point 0 0 1 1 0.5; point 0 0.1 1 0.5 1;
                    point 0 0.2 1 0.95 0.9; point 0 0.3 1 0.2 0.3])
             th_default 0
  = ["Sensitivity"; "Specificity"; "Sensitivity & Specificity"; "Other"].
Proof. reflexivity. Qed.

(* ================================================================== *)
(** * Further properties of [App.tsx] *)
(* ================================================================== *)

Section HandleSimulateRuns.

Variable B : Backend.
Variable state : AppState.

Lemma last_nonempty {A : Type} (x : A) (l : list A) (d d' : A) :
  List.last (x :: l) d = List.last (x :: l) d'.
Proof.
  revert x. induction l as [|y l IH]; intro x; [reflexivity|].
  change (List.last (y :: l) d = List.last (y :: l) d'). apply IH.
Qed.

(** The listener leaves everything but [progress] alone and ends on the
    last payload. *)
Lemma deliver_last (events : list number) (ui : UI) :
  deliver events ui =
  (Returned tt,
   mkUI (results ui) (originalData ui) (isSimulating ui)
        (List.last events (progress ui))
        (alerts ui) (listeners ui) (sent ui)).
Proof.
  revert ui. induction events as [|e rest IH]; intro ui.
  - destruct ui; reflexivity.
  - cbn [deliver]. unfold bind. cbn [setProgress].
    rewrite IH. cbn [results originalData isSimulating progress alerts
                     listeners sent].
    f_equal. f_equal. destruct rest as [|n rest]; [reflexivity|].
    change (List.last (e :: n :: rest) (progress ui))
      with (List.last (n :: rest) (progress ui)).
    apply last_nonempty.
Qed.

Lemma handleSimulate_guard (ui : UI) :
  (falsy (filePath state) || falsy (analyteName state))%bool = true ->
  handleSimulate B state ui = (Returned tt, ui).
Proof. intro G. unfold handleSimulate. now rewrite G. Qed.

Lemma handleSimulate_listen_rejected (ui : UI) (error : string) :
  (falsy (filePath state) || falsy (analyteName state))%bool = false ->
  listen_result B = inl error ->
  handleSimulate B state ui =
  (Thrown error,
   mkUI (results ui) (originalData ui) true (Fin 0)
        (alerts ui) (listeners ui) (sent ui)).
Proof.
  intros G L. unfold handleSimulate. rewrite G.
  unfold bind, listen, await, bind. cbn. rewrite L. reflexivity.
Qed.

Lemma handleSimulate_load_rejected (ui : UI) (error : string) :
  (falsy (filePath state) || falsy (analyteName state))%bool = false ->
  listen_result B = inr tt ->
  load_column_data B (unwrap (filePath state)) (unwrap (analyteName state))
    = inl error ->
  handleSimulate B state ui =
  (Returned tt,
   mkUI (results ui) (originalData ui) false (Fin 0)
        (alerts ui ++ [("Simulation failed: " ++ error)%string])
        (listeners ui) (sent ui)).
Proof.
  intros G L Ld. unfold handleSimulate. rewrite G.
  unfold bind, listen, await, bind. cbn. rewrite L. cbn.
  unfold try_catch_finally, bind. cbn. rewrite Ld. reflexivity.
Qed.

Lemma handleSimulate_run_rejected (ui : UI) (data : list Q) (error : string) :
  (falsy (filePath state) || falsy (analyteName state))%bool = false ->
  listen_result B = inr tt ->
  load_column_data B (unwrap (filePath state)) (unwrap (analyteName state))
    = inr data ->
  run_simulation_async B (mkConfig state data) = inl error ->
  handleSimulate B state ui =
  (Returned tt,
   mkUI (results ui) (Some data) false
        (List.last (progress_events B (mkConfig state data)) (Fin 0))
        (alerts ui ++ [("Simulation failed: " ++ error)%string])
        (listeners ui) (sent ui ++ [mkConfig state data])).
Proof.
  intros G L Ld R. unfold handleSimulate. rewrite G.
  unfold bind, listen, await, bind. cbn. rewrite L. cbn.
  unfold try_catch_finally, bind, invoke_run, bind. cbn. rewrite Ld. cbn.
  rewrite deliver_last. cbn. rewrite R. reflexivity.
Qed.

Lemma handleSimulate_run_resolved (ui : UI) (data : list Q)
    (result : SimulationResult) :
  (falsy (filePath state) || falsy (analyteName state))%bool = false ->
  listen_result B = inr tt ->
  load_column_data B (unwrap (filePath state)) (unwrap (analyteName state))
    = inr data ->
  run_simulation_async B (mkConfig state data) = inr result ->
  handleSimulate B state ui =
  (Returned tt,
   mkUI (Some result) (Some data) false
        (List.last (progress_events B (mkConfig state data)) (Fin 0))
        (alerts ui) (listeners ui) (sent ui ++ [mkConfig state data])).
Proof.
  intros G L Ld R. unfold handleSimulate. rewrite G.
  unfold bind, listen, await, bind. cbn. rewrite L. cbn.
  unfold try_catch_finally, bind, invoke_run, bind. cbn. rewrite Ld. cbn.
  rewrite deliver_last. cbn. rewrite R. reflexivity.
Qed.

End HandleSimulateRuns.

(** X1. When the simulation is invoked.  [handleSimulate] sends exactly one
    configuration, [mkConfig state data], when a file and a column are
    selected, [listen] resolved and the column loaded; in every other case
    (guard, [listen] rejected, load rejected) it sends nothing. *)
Theorem handleSimulate_invokes_iff_loaded :
  forall (B : Backend) (state : AppState) (ui : UI),
    let ui' := snd (handleSimulate B state ui) in
    let guard := (falsy (filePath state) || falsy (analyteName state))%bool in
    let load := load_column_data B (unwrap (filePath state))
                                   (unwrap (analyteName state)) in
    (forall data,
        guard = false -> listen_result B = inr tt -> load = inr data ->
        sent ui' = (sent ui ++ [mkConfig state data])%list) /\
    (guard = true \/ (exists e, listen_result B = inl e)
     \/ (exists e, load = inl e) ->
     sent ui' = sent ui).
Proof.
  intros B state ui ui' guard load. subst ui' guard load. split.
  - intros data G L Ld.
    destruct (run_simulation_async B (mkConfig state data)) as [e|r] eqn:R.
    + now rewrite (handleSimulate_run_rejected B state ui data e G L Ld R).
    + now rewrite (handleSimulate_run_resolved B state ui data r G L Ld R).
  - intro H.
    destruct (falsy (filePath state) || falsy (analyteName state))%bool eqn:G.
    { now rewrite (handleSimulate_guard B state ui G). }
    destruct (listen_result B) as [e|[]] eqn:L.
    { now rewrite (handleSimulate_listen_rejected B state ui e G L). }
    destruct H as [H|[[e H]|[e H]]]; try discriminate.
    now rewrite (handleSimulate_load_rejected B state ui e G L H).
Qed.

Lemma handleSimulate_invokes_iff_loaded_witness :
  sent (snd (handleSimulate workingBackend loadedState emptyUI))
    = [mkConfig loadedState [1; 2; 3]] /\
  sent (snd (handleSimulate unreadableBackend loadedState emptyUI)) = [] /\
  sent (snd (handleSimulate workingBackend initialState emptyUI)) = [].
Proof.
  split; [|split].
  - exact (proj1 (handleSimulate_invokes_iff_loaded
                    workingBackend loadedState emptyUI)
                 [1; 2; 3] eq_refl eq_refl eq_refl).
  - apply (proj2 (handleSimulate_invokes_iff_loaded
                    unreadableBackend loadedState emptyUI)).
    right; right. exists "column not found". reflexivity.
  - apply (proj2 (handleSimulate_invokes_iff_loaded
                    workingBackend initialState emptyUI)).
    left. reflexivity.
Defined.

(** X2. When [listen] rejects, the rejection escapes [handleSimulate] (the
    [await] stands before the [try]): the call throws that error, no alert
    is shown, and [isSimulating] is left at [true] with [progress] at 0;
    results, data, listeners and the backend are untouched. *)
Theorem handleSimulate_listen_rejection_escapes :
  forall (B : Backend) (state : AppState) (ui : UI) (error : string),
    (falsy (filePath state) || falsy (analyteName state))%bool = false ->
    listen_result B = inl error ->
    fst (handleSimulate B state ui) = Thrown error /\
    isSimulating (snd (handleSimulate B state ui)) = true /\
    progress (snd (handleSimulate B state ui)) = Fin 0 /\
    alerts (snd (handleSimulate B state ui)) = alerts ui /\
    results (snd (handleSimulate B state ui)) = results ui /\
    originalData (snd (handleSimulate B state ui)) = originalData ui /\
    listeners (snd (handleSimulate B state ui)) = listeners ui /\
    sent (snd (handleSimulate B state ui)) = sent ui.
Proof.
  intros B state ui error G L.
  rewrite (handleSimulate_listen_rejected B state ui error G L).
  repeat split.
Qed.

Lemma handleSimulate_listen_rejection_escapes_witness :
  fst (handleSimulate deafBackend loadedState emptyUI)
    = Thrown "event system unavailable" /\
  isSimulating (snd (handleSimulate deafBackend loadedState emptyUI)) = true.
Proof.
  pose proof (handleSimulate_listen_rejection_escapes
                deafBackend loadedState emptyUI "event system unavailable"
                eq_refl eq_refl) as (H1 & H2 & _).
  split; assumption.
Defined.

(** X3. Once [listen] has resolved, [handleSimulate] always returns normally:
    every later rejection is caught.  On return [isSimulating] is [false]
    again, the progress listener it registered has been removed, and the
    alerts grew by exactly one "Simulation failed: ..." message when the
    load or the simulation rejected and not at all when both resolved. *)
Theorem handleSimulate_cleans_up :
  forall (B : Backend) (state : AppState) (ui : UI),
    (falsy (filePath state) || falsy (analyteName state))%bool = false ->
    listen_result B = inr tt ->
    let ui' := snd (handleSimulate B state ui) in
    fst (handleSimulate B state ui) = Returned tt /\
    isSimulating ui' = false /\
    listeners ui' = listeners ui /\
    ((exists data result,
         load_column_data B (unwrap (filePath state))
                            (unwrap (analyteName state)) = inr data /\
         run_simulation_async B (mkConfig state data) = inr result /\
         alerts ui' = alerts ui) \/
     (exists error,
         alerts ui'
         = (alerts ui ++ [("Simulation failed: " ++ error)%string])%list /\
         results ui' = results ui)).
Proof.
  intros B state ui G L ui'. subst ui'.
  destruct (load_column_data B (unwrap (filePath state))
              (unwrap (analyteName state))) as [e|data] eqn:Ld.
  - rewrite (handleSimulate_load_rejected B state ui e G L Ld).
    repeat split. right. exists e. split; reflexivity.
  - destruct (run_simulation_async B (mkConfig state data)) as [e|r] eqn:R.
    + rewrite (handleSimulate_run_rejected B state ui data e G L Ld R).
      repeat split. right. exists e. split; reflexivity.
    + rewrite (handleSimulate_run_resolved B state ui data r G L Ld R).
      repeat split. left. exists data, r. repeat split; assumption.
Qed.

Lemma handleSimulate_cleans_up_witness :
  fst (handleSimulate failingBackend loadedState emptyUI) = Returned tt /\
  isSimulating (snd (handleSimulate failingBackend loadedState emptyUI))
    = false /\
  listeners (snd (handleSimulate failingBackend loadedState emptyUI))
    = listeners emptyUI.
Proof.
  pose proof (handleSimulate_cleans_up failingBackend loadedState emptyUI
                eq_refl eq_refl) as (H1 & H2 & H3 & _).
  repeat split; assumption.
Defined.

(** X4. The histogram data are replaced as soon as the column has loaded,
    before the simulation is invoked: when the load resolves with [data],
    [originalData] ends as [data] whether the simulation then resolves or
    rejects (in which case the results shown are still the old ones); when
    the load rejects, [originalData] keeps its value. *)
Theorem handleSimulate_originalData :
  forall (B : Backend) (state : AppState) (ui : UI),
    (falsy (filePath state) || falsy (analyteName state))%bool = false ->
    listen_result B = inr tt ->
    let ui' := snd (handleSimulate B state ui) in
    match load_column_data B (unwrap (filePath state))
                             (unwrap (analyteName state)) with
    | inr data =>
        originalData ui' = Some data /\
        (forall e, run_simulation_async B (mkConfig state data) = inl e ->
                   results ui' = results ui)
    | inl _ => originalData ui' = originalData ui
    end.
Proof.
  intros B state ui G L ui'. subst ui'.
  destruct (load_column_data B (unwrap (filePath state))
              (unwrap (analyteName state))) as [e|data] eqn:Ld.
  - now rewrite (handleSimulate_load_rejected B state ui e G L Ld).
  - destruct (run_simulation_async B (mkConfig state data)) as [e|r] eqn:R.
    + rewrite (handleSimulate_run_rejected B state ui data e G L Ld R).
      split; [reflexivity|]. intros; reflexivity.
    + rewrite (handleSimulate_run_resolved B state ui data r G L Ld R).
      split; [reflexivity|]. intros e' He'. discriminate He'.
Qed.

Lemma handleSimulate_originalData_witness :
  originalData
    (snd (handleSimulate failingBackend loadedState
            (mkUI (Some (grid [point 0 0 1 1 1])) (Some [7; 8]) false (Fin 0)
                  [] 0 [])))
    = Some [1; 2; 3] /\
  results
    (snd (handleSimulate failingBackend loadedState
            (mkUI (Some (grid [point 0 0 1 1 1])) (Some [7; 8]) false (Fin 0)
                  [] 0 [])))
    = Some (grid [point 0 0 1 1 1]).
Proof.
  pose proof (handleSimulate_originalData failingBackend loadedState
                (mkUI (Some (grid [point 0 0 1 1 1])) (Some [7; 8]) false
                      (Fin 0) [] 0 [])
                eq_refl eq_refl) as H.
  cbv zeta in H. cbn [load_column_data failingBackend] in H.
  destruct H as [H1 H2]. split; [exact H1|].
  exact (H2 "dataset is empty" eq_refl).
Defined.

Section Upload.

Variable D : FileDialog.
Variable w : Shell.

(** X5. A cancelled dialog changes nothing; a rejection of the dialog or of
    [get_file_columns] shows one "Failed to open file: ..." alert and leaves
    the application state and the column list as they were, so the file
    selected before stays selected. *)
Theorem handleUpload_failure_keeps_state :
  (open_result D = inr None \/ open_result D = inr (Some "") ->
   handleUpload D w = w) /\
  (forall error,
      open_result D = inl error \/
      (exists selected,
          open_result D = inr (Some selected) /\ selected <> "" /\
          get_file_columns D selected = inl error) ->
      app_state (handleUpload D w) = app_state w /\
      columns (handleUpload D w) = columns w /\
      shown (handleUpload D w)
        = (shown w ++ [("Failed to open file: " ++ error)%string])%list).
Proof.
  unfold handleUpload. split.
  - intros [-> | ->]; reflexivity.
  - intros error [-> | (selected & -> & Hne & Hcols)].
    + repeat split.
    + apply String.eqb_neq in Hne. rewrite Hne, Hcols. repeat split.
Qed.

(** X6. A successful upload replaces the column list, selects the file and its
    first column (no column when the file has none) and touches no other
    setting; afterwards the "Simulate" button is enabled exactly when the
    file has a first column whose name is not empty (and no simulation is
    running), and [handleSimulate] is past its guard in exactly that case. *)
Theorem handleUpload_success :
  forall (selected : string) (cols : list string),
    open_result D = inr (Some selected) ->
    selected <> "" ->
    get_file_columns D selected = inr cols ->
    let w' := handleUpload D w in
    columns w' = cols /\
    shown w' = shown w /\
    filePath (app_state w') = Some selected /\
    analyteName (app_state w') = List.hd_error cols /\
    app_state w' = set_file selected (List.hd_error cols) (app_state w) /\
    (simulateDisabled false (app_state w') = false <->
     exists first rest, cols = first :: rest /\ first <> "") /\
    ((falsy (filePath (app_state w')) || falsy (analyteName (app_state w')))%bool
     = simulateDisabled false (app_state w')).
Proof.
  intros selected cols Hopen Hne Hcols w'. subst w'.
  unfold handleUpload. rewrite Hopen.
  pose proof Hne as Hne'. apply String.eqb_neq in Hne'. rewrite Hne', Hcols.
  destruct cols as [|first rest]; cbn.
  - repeat split; try reflexivity.
    + unfold simulateDisabled. cbn. rewrite Hne'. cbn. discriminate.
    + intros (f & r & Hc & _). discriminate Hc.
  - repeat split; try reflexivity.
    + unfold simulateDisabled. cbn. rewrite Hne'. cbn. intro H.
      exists first, rest. split; [reflexivity|]. now apply String.eqb_neq.
    + intros (f & r & Hc & Hf). injection Hc as <- <-.
      unfold simulateDisabled. cbn. rewrite Hne'. cbn.
      now apply String.eqb_neq.
Qed.

End Upload.

Lemma handleUpload_failure_keeps_state_witness :
  app_state (handleUpload unreadableDialog initialShell) = initialState /\
  columns (handleUpload unreadableDialog initialShell) = [] /\
  shown (handleUpload unreadableDialog initialShell)
    = ["Failed to open file: unsupported file"].
Proof.
  apply (proj2 (handleUpload_failure_keeps_state unreadableDialog initialShell)
               "unsupported file").
  right. exists "/home/lab/notes.txt". repeat split. discriminate.
Defined.

Lemma handleUpload_success_witness :
  columns (handleUpload pickedDialog initialShell) = ["glucose"; "age"] /\
  filePath (app_state (handleUpload pickedDialog initialShell))
    = Some "/home/lab/glucose.csv" /\
  analyteName (app_state (handleUpload pickedDialog initialShell)) = Some "glucose".
Proof.
  pose proof (handleUpload_success pickedDialog initialShell
                "/home/lab/glucose.csv" ["glucose"; "age"] eq_refl
                ltac:(discriminate) eq_refl) as (H1 & _ & H3 & H4 & _).
  repeat split; assumption.
Defined.

(** X7. Ticking "Optional Sampling" stores the number of values of the loaded
    column when [fetchDataCount] found a non-empty one, and 1000 in every
    other case: no file or column selected, a load that rejected, or an
    empty column.  Unticking stores [null]. *)
Theorem useSampling_default :
  forall (B : Backend) (s state prev : AppState),
    let ticked :=
      sampleSize (onChange_useSampling (fetchDataCount B s) true state prev) in
    sampleSize (onChange_useSampling (fetchDataCount B s) false state prev)
      = None /\
    (forall data,
        (falsy (filePath s) || falsy (analyteName s))%bool = false ->
        load_column_data B (unwrap (filePath s)) (unwrap (analyteName s))
          = inr data ->
        data <> [] ->
        ticked = Some (JS.of_nat (List.length data))) /\
    ((falsy (filePath s) || falsy (analyteName s))%bool = true \/
     (exists e, load_column_data B (unwrap (filePath s))
                                   (unwrap (analyteName s)) = inl e) \/
     load_column_data B (unwrap (filePath s)) (unwrap (analyteName s))
       = inr [] ->
     ticked = Some (Fin 1000)).
Proof.
  intros B s state prev ticked. subst ticked.
  unfold onChange_useSampling, fetchDataCount. cbn [sampleSize set_sampleSize].
  split; [reflexivity|split].
  - intros data G Ld Hne.
    apply orb_false_iff in G. destruct G as [G1 G2]. rewrite G1, G2, Ld. cbn.
    destruct data as [|q data]; [congruence|]. reflexivity.
  - intros [G|[[e Ld]|Ld]].
    + apply orb_true_iff in G. destruct G as [-> | ->]; cbn;
        [reflexivity|]. now rewrite andb_false_r.
    + rewrite Ld.
      destruct (negb (falsy (filePath s)) && negb (falsy (analyteName s)))%bool;
        reflexivity.
    + rewrite Ld.
      destruct (negb (falsy (filePath s)) && negb (falsy (analyteName s)))%bool;
        reflexivity.
Qed.

Lemma useSampling_default_witness :
  sampleSize (onChange_useSampling (fetchDataCount workingBackend loadedState)
                                   true loadedState loadedState)
    = Some (JS.of_nat 3) /\
  sampleSize (onChange_useSampling (fetchDataCount workingBackend initialState)
                                   true initialState initialState)
    = Some (Fin 1000).
Proof.
  split.
  - exact (proj1 (proj2 (useSampling_default workingBackend loadedState
                           loadedState loadedState))
                 [1; 2; 3] eq_refl eq_refl ltac:(discriminate)).
  - apply (proj2 (proj2 (useSampling_default workingBackend initialState
                           initialState initialState))).
    left. reflexivity.
Defined.

Section OverrideCaps.

Variable value : string.
Variables state prev : AppState.

Lemma override_cap_maxMu :
  JS.leb (maxMu (onChange_maxMu value state prev)) (Fin 33.3) = true.
Proof. rewrite onChange_maxMu_stored. apply capped. discriminate. Qed.

Lemma override_cap_maxImprecision :
  JS.leb (maxImprecision (onChange_maxImprecision value state prev))
         (Fin 33.3) = true.
Proof. rewrite onChange_maxImprecision_stored. apply capped. discriminate. Qed.

Lemma override_cap_maxBias :
  JS.leb (maxBias (onChange_maxBias value state prev)) (Fin 100) = true.
Proof. rewrite onChange_maxBias_stored. apply capped. discriminate. Qed.

End OverrideCaps.

(* ================================================================== *)
(** * Further properties of [components/Sidebar.tsx] *)
(* ================================================================== *)

Section SidebarInvariant.

Lemma or_else_not_NaN (x : number) (q : Q) :
  JS.isNaN (JS.or_else x (Fin q)) = false.
Proof.
  unfold JS.or_else. destruct x as [|[]|a]; try reflexivity.
  now destruct (JS.truthy (Fin a)).
Qed.

Lemma or_else_truthy (x y : number) :
  JS.truthy y = true -> JS.truthy (JS.or_else x y) = true.
Proof. intro H. unfold JS.or_else. now destruct (JS.truthy x) eqn:E. Qed.

Lemma or_else_parseInt_integer (value : string) :
  JS.isInteger (JS.or_else (JS.parseInt value) (Fin 0)) = true.
Proof.
  destruct (parseInt_integer value) as [-> | [z ->]]; [reflexivity|].
  unfold JS.or_else. destruct (JS.truthy _); [apply isInteger_inject_Z|].
  reflexivity.
Qed.

Lemma dataCount_or_integer (dataCount : option nat) :
  JS.isInteger (dataCount_or dataCount (Fin 1000)) = true.
Proof.
  destruct dataCount as [n|]; [|reflexivity].
  unfold dataCount_or, JS.or_else.
  destruct (JS.truthy _); [apply isInteger_inject_Z|reflexivity].
Qed.

(** What the sample-size input stores is an integer, whatever the data
    count is (none, zero or positive). *)
Lemma sampleSize_stored_integer (dataCount : option nat) (value : string)
    (state prev : AppState) (v : number) :
  sampleSize (onChange_sampleSize dataCount value state prev) = Some v ->
  JS.isInteger v = true.
Proof.
  unfold onChange_sampleSize.
  destruct (parseInt_integer value) as [-> | [z ->]]; cbn [JS.isNaN negb].
  - cbn. intro H. injection H as <-. reflexivity.
  - cbn [sampleSize set_sampleSize]. intro H. injection H as <-.
    assert (Hmax : dataCount_or dataCount (Infinity false) = Infinity false
                   \/ exists n, dataCount_or dataCount (Infinity false)
                                = JS.of_nat n).
    { destruct dataCount as [n|]; [|now left].
      unfold dataCount_or, JS.or_else.
      destruct (JS.truthy _); [right; now exists n|now left]. }
    destruct Hmax as [-> | [n ->]].
    + exact (isInteger_inject_Z z).
    + destruct (Math_min_pair (Fin (inject_Z z)) (JS.of_nat n) eq_refl eq_refl)
        as [-> | ->]; apply isInteger_inject_Z.
Qed.

Lemma Forall_array_set (P : number -> Prop) (a : list number) (i : nat)
    (v : number) :
  Forall P a -> P v -> Forall P (array_set a i v).
Proof.
  intros Ha Hv. revert i.
  induction Ha as [|x a Hx Ha IH]; intros [|i]; cbn; constructor; auto.
Qed.

Lemma Forall_removelast {A : Type} (P : A -> Prop) (l : list A) :
  Forall P l -> Forall P (removelast l).
Proof.
  induction 1 as [|x l Hx Hl IH]; [constructor|].
  destruct l as [|y l]; [constructor|].
  change (Forall P (x :: removelast (y :: l))). now constructor.
Qed.

Lemma cdl_step_no_NaN (e : cdl_event) (s : AppState) :
  Forall (fun c => JS.isNaN c = false) (cdls s) ->
  Forall (fun c => JS.isNaN c = false) (cdls (fire (cdl_handler e) s)).
Proof.
  intro H. destruct e as [| |index value]; cbn [cdl_handler].
  - rewrite addCDL_cdls. destruct (_ <? _)%nat; [|exact H].
    apply Forall_app. split; [exact H|]. now constructor.
  - rewrite removeCDL_cdls. destruct (_ <? _)%nat; [|exact H].
    now apply Forall_removelast.
  - unfold fire, updateCDL. cbn [cdls set_cdls].
    apply Forall_array_set; [exact H|apply or_else_not_NaN].
Qed.

Lemma settings_ok_initial : settings_ok initialState.
Proof.
  unfold settings_ok. cbn.
  repeat split; try reflexivity; try lia.
  - repeat constructor.
  - discriminate.
Qed.

Lemma settings_ok_step (e : sidebar_event) (s : AppState) :
  settings_ok s -> settings_ok (fire (sidebar_handler e) s).
Proof.
  intros (Hlen & Hnan & Hmu & Himp & Hbias & Hsm & Hsib & Hbv & Hdp & Hss).
  destruct e; cbn [sidebar_handler];
    try (unfold settings_ok, fire; cbn;
         repeat split; try assumption; try apply Hlen; fail).
  - (* decimal places *)
    unfold settings_ok, fire, onChange_decimalPlaces.
    cbn [cdls maxMu maxImprecision maxBias stepSizeMu stepSizeImpBias
         biologicalVariation decimalPlaces sampleSize set_decimalPlaces].
    repeat split; try assumption; try apply Hlen.
    apply or_else_parseInt_integer.
  - (* decision limits *)
    pose proof (cdl_step_bounds e s Hlen) as Hlen'.
    pose proof (cdl_step_no_NaN e s Hnan) as Hnan'.
    assert (F : forall f : AppState -> number,
                (forall v t, f (set_cdls v t) = f t) ->
                f (fire (cdl_handler e) s) = f s).
    { intros f Hf. destruct e; unfold fire; cbn;
        unfold addCDL, removeCDL, updateCDL;
        repeat match goal with |- context [if ?b then _ else _] =>
                 destruct b end; auto. }
    assert (Fs : sampleSize (fire (cdl_handler e) s) = sampleSize s).
    { destruct e; unfold fire; cbn; unfold addCDL, removeCDL, updateCDL;
        repeat match goal with |- context [if ?b then _ else _] =>
                 destruct b end; auto. }
    unfold settings_ok.
    rewrite (F maxMu), (F maxImprecision), (F maxBias), (F stepSizeMu),
      (F stepSizeImpBias), (F biologicalVariation), (F decimalPlaces), Fs
      by reflexivity.
    repeat split; try assumption; apply Hlen'.
  - (* CV_i *)
    unfold settings_ok, fire, onChange_biologicalVariation.
    cbn [cdls maxMu maxImprecision maxBias stepSizeMu stepSizeImpBias
         biologicalVariation decimalPlaces sampleSize set_biologicalVariation].
    repeat split; try assumption; try apply Hlen.
    apply or_else_not_NaN.
  - (* max MU *)
    pose proof (override_cap_maxMu value s s) as Hcap.
    unfold settings_ok, fire. unfold fire in Hcap.
    unfold onChange_maxMu in *.
    destruct (negb (JS.isNaN (JS.parseFloat value)));
      cbn [cdls maxMu maxImprecision maxBias stepSizeMu stepSizeImpBias
           biologicalVariation decimalPlaces sampleSize set_maxMu] in *;
      repeat split; try assumption; try apply Hlen.
  - (* step size MU *)
    unfold settings_ok, fire, onChange_stepSizeMu.
    cbn [cdls maxMu maxImprecision maxBias stepSizeMu stepSizeImpBias
         biologicalVariation decimalPlaces sampleSize set_stepSizeMu].
    repeat split; try assumption; try apply Hlen.
    now apply or_else_truthy.
  - (* max imprecision *)
    pose proof (override_cap_maxImprecision value s s) as Hcap.
    unfold settings_ok, fire. unfold fire in Hcap.
    unfold onChange_maxImprecision in *.
    destruct (negb (JS.isNaN (JS.parseFloat value)));
      cbn [cdls maxMu maxImprecision maxBias stepSizeMu stepSizeImpBias
           biologicalVariation decimalPlaces sampleSize set_maxImprecision]
        in *;
      repeat split; try assumption; try apply Hlen.
  - (* max bias *)
    pose proof (override_cap_maxBias value s s) as Hcap.
    unfold settings_ok, fire. unfold fire in Hcap.
    unfold onChange_maxBias in *.
    destruct (negb (JS.isNaN (JS.parseFloat value)));
      cbn [cdls maxMu maxImprecision maxBias stepSizeMu stepSizeImpBias
           biologicalVariation decimalPlaces sampleSize set_maxBias] in *;
      repeat split; try assumption; try apply Hlen.
  - (* step size imprecision and bias *)
    unfold settings_ok, fire, onChange_stepSizeImpBias.
    cbn [cdls maxMu maxImprecision maxBias stepSizeMu stepSizeImpBias
         biologicalVariation decimalPlaces sampleSize set_stepSizeImpBias].
    repeat split; try assumption; try apply Hlen.
    now apply or_else_truthy.
  - (* sampling checkbox *)
    unfold settings_ok, fire, onChange_useSampling.
    cbn [cdls maxMu maxImprecision maxBias stepSizeMu stepSizeImpBias
         biologicalVariation decimalPlaces sampleSize set_sampleSize].
    repeat split; try assumption; try apply Hlen.
    intros v Hv. destruct checked; [|discriminate].
    injection Hv as <-. apply dataCount_or_integer.
  - (* sample size *)
    assert (F : forall (A : Type) (f : AppState -> A),
                (forall v t, f (set_sampleSize v t) = f t) ->
                f (fire (onChange_sampleSize dataCount value) s) = f s).
    { intros A f Hf. unfold fire, onChange_sampleSize.
      destruct (negb _); apply Hf. }
    unfold settings_ok.
    rewrite (F _ cdls), (F _ maxMu), (F _ maxImprecision), (F _ maxBias),
      (F _ stepSizeMu), (F _ stepSizeImpBias), (F _ biologicalVariation),
      (F _ decimalPlaces) by reflexivity.
    repeat split; try assumption; try apply Hlen.
    intros v Hv. eapply sampleSize_stored_integer. exact Hv.
Qed.

Lemma settings_ok_reachable (s : AppState) :
  sidebar_reachable s -> settings_ok s.
Proof.
  induction 1 as [|e s _ IH _|path column s _ IH].
  - apply settings_ok_initial.
  - now apply settings_ok_step.
  - exact IH.
Qed.

End SidebarInvariant.

Lemma typed50_reachable : sidebar_reachable typed50.
Proof.
  unfold typed50.
  apply sidebar_step; [|reflexivity].
  apply sidebar_step; [apply sidebar_init|exact I].
Qed.

(** X8. Whatever the user does in the sidebar, a configuration built from the
    resulting state carries boundary overrides within their caps
    ([max_mu] and [max_imprecision] at most 33.3, [max_bias] at most 100)
    and step sizes that are neither 0 nor NaN. *)
Theorem reachable_config_boundaries :
  forall (s : AppState) (data : list Q),
    sidebar_reachable s ->
    let c := mkConfig s data in
    (forall v, SimulationConfig.max_mu c = Some v ->
               JS.leb v (Fin 33.3) = true) /\
    (forall v, SimulationConfig.max_imprecision c = Some v ->
               JS.leb v (Fin 33.3) = true) /\
    (forall v, SimulationConfig.max_bias c = Some v ->
               JS.leb v (Fin 100) = true) /\
    (forall v, SimulationConfig.step_size_mu c = Some v ->
               JS.truthy v = true) /\
    (forall v, SimulationConfig.step_size_imp_bias c = Some v ->
               JS.truthy v = true).
Proof.
  intros s data Hs c. subst c.
  destruct (settings_ok_reachable s Hs)
    as (_ & _ & Hmu & Himp & Hbias & Hsm & Hsib & _).
  unfold mkConfig. cbn.
  destruct (useCustomBoundaries s);
    repeat split; intros v Hv; try discriminate Hv;
    injection Hv as <-; assumption.
Qed.

Lemma reachable_config_boundaries_witness :
  SimulationConfig.max_mu (mkConfig typed50 [1; 2; 3]) = Some (Fin 33.3) /\
  JS.leb (Fin 33.3) (Fin 33.3) = true.
Proof.
  split; [reflexivity|].
  exact (proj1 (reachable_config_boundaries typed50 [1; 2; 3]
                  typed50_reachable)
               (Fin 33.3) eq_refl).
Defined.

(** X9. Whatever the user does in the sidebar (not only with the [+] and [-]
    buttons), the list of decision limits keeps between 1 and 7 entries and
    none of them is NaN: an entry that does not parse is stored as 0. *)
Theorem reachable_cdls :
  forall s : AppState,
    sidebar_reachable s ->
    (1 <= List.length (cdls s) <= 7)%nat /\
    forall c, In c (cdls s) -> JS.isNaN c = false.
Proof.
  intros s Hs.
  destruct (settings_ok_reachable s Hs) as (Hlen & Hnan & _).
  split; [exact Hlen|].
  intros c Hc. rewrite Forall_forall in Hnan. now apply Hnan.
Qed.

Lemma reachable_cdls_witness :
  (1 <= List.length (cdls typed50) <= 7)%nat.
Proof.
  exact (proj1 (reachable_cdls typed50 typed50_reachable)).
Defined.

(** X10. Whatever the user does in the sidebar, the stored decimal places are an
    integer, the stored sample size is an integer whenever it is present,
    and the stored biological variation is not NaN. *)
Theorem reachable_integers :
  forall s : AppState,
    sidebar_reachable s ->
    JS.isInteger (decimalPlaces s) = true /\
    (forall v, sampleSize s = Some v -> JS.isInteger v = true) /\
    JS.isNaN (biologicalVariation s) = false.
Proof.
  intros s Hs.
  destruct (settings_ok_reachable s Hs)
    as (_ & _ & _ & _ & _ & _ & _ & Hbv & Hdp & Hss).
  repeat split; assumption.
Qed.

Lemma reachable_integers_witness :
  JS.isInteger (decimalPlaces typed50) = true.
Proof.
  exact (proj1 (reachable_integers typed50 typed50_reachable)).
Defined.

Section DecisionLimitEdits.

Variable s : AppState.

Lemma nth_error_array_set_same (a : list number) (i : nat) (v : number) :
  (i < List.length a)%nat -> nth_error (array_set a i v) i = Some v.
Proof.
  revert i. induction a as [|x a IH]; intros [|i] H; cbn in *; try lia.
  - reflexivity.
  - apply IH. lia.
Qed.

Lemma nth_error_array_set_other (a : list number) (i j : nat) (v : number) :
  i <> j -> nth_error (array_set a i v) j = nth_error a j.
Proof.
  revert i j. induction a as [|x a IH]; intros [|i] [|j] H; cbn;
    try reflexivity; try congruence.
  apply IH. congruence.
Qed.

(** X11. Typing into the CDL input number [index] replaces that entry and no
    other: afterwards the list has the same length, reads [value] at
    [index] and is unchanged everywhere else. *)
Theorem updateCDL_lookup :
  forall (index : nat) (value : number),
    (index < List.length (cdls s))%nat ->
    let s' := fire (updateCDL index value) s in
    List.length (cdls s') = List.length (cdls s) /\
    nth_error (cdls s') index = Some value /\
    (forall j, j <> index -> nth_error (cdls s') j = nth_error (cdls s) j).
Proof.
  intros index value H s'. subst s'. unfold fire, updateCDL.
  cbn [cdls set_cdls]. split; [apply length_array_set|split].
  - now apply nth_error_array_set_same.
  - intros j Hj. apply nth_error_array_set_other. congruence.
Qed.

Lemma set_cdls_same (t : AppState) : set_cdls (cdls t) t = t.
Proof. destruct t; reflexivity. Qed.

Lemma set_cdls_twice (a b : list number) (t : AppState) :
  set_cdls a (set_cdls b t) = set_cdls a t.
Proof. reflexivity. Qed.

(** X12. [-] undoes [+] as long as [+] did something: on a list of 1 to 6
    limits, adding and then removing gives the state back.  On a full list
    of 7, [+] does nothing and the following [-] drops the last limit. *)
Theorem add_then_remove :
  ((1 <= List.length (cdls s) < 7)%nat ->
   fire removeCDL (fire addCDL s) = s) /\
  (List.length (cdls s) = 7%nat ->
   fire addCDL s = s /\
   cdls (fire removeCDL (fire addCDL s)) = removelast (cdls s)).
Proof.
  split.
  - intro H. unfold fire, addCDL, removeCDL.
    destruct (List.length (cdls s) <? 7)%nat eqn:E;
      [|apply Nat.ltb_ge in E; lia].
    cbn [cdls set_cdls]. rewrite length_app. cbn [List.length].
    destruct (1 <? List.length (cdls s) + 1)%nat eqn:E';
      [|apply Nat.ltb_ge in E'; lia].
    rewrite removelast_last. rewrite set_cdls_twice. apply set_cdls_same.
  - intro H. unfold fire, addCDL, removeCDL. rewrite H. cbn [Nat.ltb Nat.leb].
    split; [reflexivity|]. rewrite H. reflexivity.
Qed.

(** X13. Each of the two buttons is disabled exactly when its handler would
    leave the state as it is; when it is enabled, a click changes the
    number of limits by one. *)
Theorem cdl_buttons_disabled_iff_noop :
  (addDisabled s = true <-> fire addCDL s = s) /\
  (removeDisabled s = true <-> fire removeCDL s = s) /\
  (addDisabled s = false ->
   List.length (cdls (fire addCDL s)) = S (List.length (cdls s))) /\
  (removeDisabled s = false ->
   S (List.length (cdls (fire removeCDL s))) = List.length (cdls s)).
Proof.
  unfold addDisabled, removeDisabled.
  split; [|split; [|split]].
  - rewrite Nat.leb_le. split.
    + intro H. unfold fire, addCDL.
      destruct (List.length (cdls s) <? 7)%nat eqn:E; [|reflexivity].
      apply Nat.ltb_lt in E. lia.
    + intro H. pose proof (addCDL_length s) as L. rewrite H in L.
      destruct (List.length (cdls s) <? 7)%nat eqn:E; [lia|].
      now apply Nat.ltb_ge in E.
  - rewrite Nat.leb_le. split.
    + intro H. unfold fire, removeCDL.
      destruct (1 <? List.length (cdls s))%nat eqn:E; [|reflexivity].
      apply Nat.ltb_lt in E. lia.
    + intro H. pose proof (removeCDL_length s) as L. rewrite H in L.
      destruct (1 <? List.length (cdls s))%nat eqn:E.
      * apply Nat.ltb_lt in E. lia.
      * now apply Nat.ltb_ge in E.
  - intro H. apply Nat.leb_gt in H. rewrite addCDL_length.
    destruct (List.length (cdls s) <? 7)%nat eqn:E; [reflexivity|].
    apply Nat.ltb_ge in E. lia.
  - intro H. apply Nat.leb_gt in H. rewrite removeCDL_length.
    destruct (1 <? List.length (cdls s))%nat eqn:E; [lia|].
    apply Nat.ltb_ge in E. lia.
Qed.

End DecisionLimitEdits.

Lemma updateCDL_lookup_witness :
  nth_error (cdls (fire (updateCDL 0 (Fin 5.5)) initialState)) 0
    = Some (Fin 5.5).
Proof.
  exact (proj1 (proj2 (updateCDL_lookup initialState 0%nat (Fin 5.5)
                         ltac:(cbn; lia)))).
Defined.

Lemma add_then_remove_witness :
  fire removeCDL (fire addCDL initialState) = initialState.
Proof.
  apply (proj1 (add_then_remove initialState)). cbn. lia.
Defined.

Section ModelGating.

Lemma prefix_app (t s : string) :
  String.prefix t s = true <-> exists c, s = (t ++ c)%string.
Proof.
  revert s. induction t as [|a t IH]; intro s.
  - split; [intros _; now exists s|intros _; now destruct s].
  - destruct s as [|b s].
    + split; [discriminate|]. intros [c H]. discriminate H.
    + simpl. destruct (ascii_dec a b) as [->|Hab].
      * rewrite IH. split; intros [c H]; exists c.
        -- now rewrite H.
        -- now injection H.
      * split; [discriminate|]. intros [c H]. injection H as H _. congruence.
Qed.

(** [includes] is the substring test. *)
Lemma includes_spec (s t : string) :
  includes s t = true <-> exists a c, s = (a ++ t ++ c)%string.
Proof.
  induction s as [|x s IH]; cbn [includes].
  - rewrite orb_false_r, prefix_app. split.
    + intros [c H]. now exists EmptyString, c.
    + intros (a & c & H). destruct a as [|y a]; [now exists c|discriminate H].
  - rewrite orb_true_iff, prefix_app, IH. split.
    + intros [[c H]|(a & c & H)].
      * now exists EmptyString, c.
      * exists (String x a), c. cbn. now rewrite H.
    + intros (a & c & H). destruct a as [|y a].
      * left. now exists c.
      * right. injection H as _ H. now exists a, c.
Qed.

(** X14. Which inputs each model gets.  The CV_i input is rendered for the two
    resampling models; with "Adjust Simulation Boundaries" ticked, the two
    measurement-uncertainty models get the MU boundary inputs and the two
    imprecision-and-bias models the imprecision and bias inputs.  [Results]
    uses the measurement-uncertainty layout for the analytical-rerun MU
    model only: under the MU resampling model the sidebar offers MU
    boundaries while the results are laid out with bias columns. *)
Theorem model_gating :
  forall s : AppState,
    let m := simulationModel s in
    (showsCvInput s = true <-> m = MuResampling \/ m = ImpBiasResampling) /\
    (showsMuBoundaries s = true <->
     useCustomBoundaries s = true /\ (m = MuRerun \/ m = MuResampling)) /\
    (showsImpBiasBoundaries s = true <->
     useCustomBoundaries s = true /\
     (m = ImpBiasRerun \/ m = ImpBiasResampling)) /\
    (isMuModel m = true <-> m = MuRerun).
Proof.
  intro s. cbv zeta.
  unfold showsCvInput, showsMuBoundaries, showsImpBiasBoundaries.
  destruct (useCustomBoundaries s), (simulationModel s);
    vm_compute; intuition discriminate.
Qed.

End ModelGating.

Section FileLabel.

Lemma pop_cons (x y : string) (l : list string) :
  pop (x :: y :: l) = pop (y :: l).
Proof. reflexivity. Qed.

(** The shape of [split_path]: one piece when the path has no separator,
    otherwise at least two, the last one following the last separator. *)
Lemma split_path_shape (path : string) :
  exists label,
    fileLabel path = Some label /\
    (forall c, In c (list_ascii_of_string label) -> isSeparator c = false) /\
    ((split_path path = [label] /\ path = label) \/
     (exists dir c piece pieces,
         split_path path = piece :: pieces /\ pieces <> [] /\
         isSeparator c = true /\
         path = (dir ++ String c label)%string)).
Proof.
  unfold fileLabel.
  induction path as [|c rest (label & Hpop & Hns & Hshape)].
  - exists EmptyString. cbn. split; [reflexivity|]. split; [intros c []|].
    left. split; reflexivity.
  - cbn [split_path]. destruct (isSeparator c) eqn:Ec.
    + exists label. split; [|split; [exact Hns|right]].
      * destruct Hshape as [[Hs _]|(dir & c' & piece & pieces & Hs & _)];
          rewrite Hs in *; exact Hpop.
      * destruct Hshape as [[Hs ->]|(dir & c' & piece & pieces & Hs & _ & Hc' & ->)].
        -- exists EmptyString, c, EmptyString, [label].
           rewrite Hs. repeat split; [discriminate|exact Ec].
        -- exists (String c dir), c', EmptyString, (piece :: pieces).
           rewrite Hs. repeat split; [discriminate|exact Hc'].
    + destruct Hshape as [[Hs ->]|(dir & c' & piece & pieces & Hs & Hne & Hc' & ->)].
      * exists (String c label). rewrite Hs. split; [reflexivity|]. split.
        -- intros x [<-|Hx]; [exact Ec|now apply Hns].
        -- left. split; reflexivity.
      * exists label. rewrite Hs. split; [|split; [exact Hns|right]].
        -- rewrite Hs in Hpop. destruct pieces as [|p ps]; [congruence|].
           exact Hpop.
        -- exists (String c dir), c', (String c piece), pieces.
           repeat split; assumption.
Qed.

Lemma split_path_no_separator (name : string) :
  (forall c, In c (list_ascii_of_string name) -> isSeparator c = false) ->
  split_path name = [name].
Proof.
  induction name as [|c name IH]; intro H; [reflexivity|].
  cbn [split_path]. rewrite (H c (or_introl eq_refl)).
  rewrite IH; [reflexivity|]. intros x Hx. apply H. now right.
Qed.

Lemma split_path_after_separator (dir : string) (c : ascii) (name : string) :
  isSeparator c = true ->
  (forall x, In x (list_ascii_of_string name) -> isSeparator x = false) ->
  exists piece pieces,
    split_path (dir ++ String c name) = piece :: pieces /\
    pop pieces = Some name.
Proof.
  intros Hc Hn. induction dir as [|d dir (piece & pieces & Hs & Hp)].
  - cbn [append split_path]. rewrite Hc.
    rewrite (split_path_no_separator name Hn).
    now exists EmptyString, [name].
  - cbn [append split_path]. rewrite Hs. destruct (isSeparator d).
    + exists EmptyString, (piece :: pieces). split; [reflexivity|].
      destruct pieces as [|p ps]; [discriminate Hp|exact Hp].
    + now exists (String d piece), pieces.
Qed.

(** X15. The label under the upload button is the part of the path after its
    last slash or backslash: it is always defined, contains no separator,
    and the path is the label itself or ends with a separator followed by
    the label.  Conversely, for a name without separators, the label of
    [dir/name] is [name]. *)
Theorem fileLabel_is_last_component :
  (forall path : string,
      exists label,
        fileLabel path = Some label /\
        (forall c, In c (list_ascii_of_string label) ->
                   isSeparator c = false) /\
        (path = label \/
         exists dir c, isSeparator c = true /\
                       path = (dir ++ String c label)%string)) /\
  (forall (dir name : string) (c : ascii),
      isSeparator c = true ->
      (forall x, In x (list_ascii_of_string name) -> isSeparator x = false) ->
      fileLabel (dir ++ String c name) = Some name).
Proof.
  split.
  - intro path.
    destruct (split_path_shape path) as (label & Hl & Hns & Hshape).
    exists label. split; [exact Hl|]. split; [exact Hns|].
    destruct Hshape as [[_ H]|(dir & c & _ & _ & _ & _ & Hc & H)].
    + now left.
    + right. now exists dir, c.
  - intros dir name c Hc Hn. unfold fileLabel.
    destruct (split_path_after_separator dir c name Hc Hn)
      as (piece & pieces & -> & Hp).
    destruct pieces as [|p ps]; [discriminate Hp|exact Hp].
Qed.

End FileLabel.

Lemma fileLabel_is_last_component_witness :
  fileLabel "/home/lab/glucose.csv" = Some "glucose.csv".
Proof.
  apply (proj2 fileLabel_is_last_component "/home/lab" "glucose.csv" "/"%char).
  - reflexivity.
  - intros x Hx. cbn in Hx.
    repeat (destruct Hx as [<-|Hx]; [reflexivity|]). destruct Hx.
Defined.

(* ================================================================== *)
(** * Further properties of [components/Results.tsx] *)
(* ================================================================== *)

Section Cells.

Lemma string_of_uint_head (d : Decimal.uint) :
  exists c r, NilZero.string_of_uint d = String c r /\ JS.isDigit c = true.
Proof.
  destruct d; cbn; eexists; eexists; split; reflexivity.
Qed.

(** A formatted finite number starts with a digit or a minus sign. *)
Lemma toFixed_Fin_head (f : nat) (q : Q) :
  exists c r,
    JS.toFixed f (Fin q) = String c r /\
    (JS.isDigit c = true \/ c = "-"%char).
Proof.
  cbn [JS.toFixed]. unfold JS.toFixed_Q.
  destruct (JS.Qsign_neg q).
  - eexists; eexists; split; [reflexivity|now right].
  - destruct f as [|f].
    + unfold JS.string_of_Z.
      destruct (string_of_uint_head
                  (N.to_uint (Z.to_N (JS.round_scaled 0 (Qabs q)))))
        as (c & r & -> & Hc).
      exists c, r. split; [reflexivity|now left].
    + unfold JS.string_of_Z at 1.
      match goal with
      | |- context [NilZero.string_of_uint ?d ++ _] =>
          destruct (string_of_uint_head d) as (c & r & -> & Hc)
      end.
      eexists; eexists; split; [reflexivity|now left].
Qed.

Lemma toFixed_Fin_not_label (f : nat) (q : Q) :
  JS.toFixed f (Fin q) <> "NO" /\ JS.toFixed f (Fin q) <> "NA".
Proof.
  destruct (toFixed_Fin_head f q) as (c & r & -> & [Hc | ->]).
  - split; intro H; injection H as -> _; discriminate Hc.
  - split; discriminate.
Qed.

Lemma leb_trans (x y z : number) :
  JS.leb x y = true -> JS.leb y z = true -> JS.leb x z = true.
Proof.
  destruct x as [|[]|a], y as [|[]|b], z as [|[]|c]; cbn;
    try discriminate; try reflexivity.
  rewrite !negb_true_iff, !Qltb_ge. intros H1 H2.
  eapply Qle_trans; eassumption.
Qed.

Variable results : SimulationResult.
Variable metric : Metric.
Variable levelIndex : option nat.

Lemma kept_mono (t1 t2 : number) (d : SimulationPoint) :
  JS.leb t1 t2 = true ->
  kept results metric levelIndex t2 d -> kept results metric levelIndex t1 d.
Proof.
  intros Ht [Hin Hge]. split; [exact Hin|].
  unfold JS.geb in *. eapply leb_trans; eassumption.
Qed.

Lemma getLimit_NO_iff_nothing_kept (t : number) (type : LimitType) :
  getLimit results metric levelIndex t type = "NO"
  <-> forall d, ~ kept results metric levelIndex t d.
Proof.
  split.
  - intros H d Hd.
    destruct (getLimit_extremal results metric levelIndex t type
                (ex_intro _ d Hd)) as (d0 & _ & _ & Hget).
    rewrite Hget in H.
    destruct (beyond_cutoff type (column_pct type d0)); [discriminate H|].
    exact (proj1 (toFixed_Fin_not_label 1 _) H).
  - intro H. unfold getLimit.
    now rewrite (validPoints_nil results metric levelIndex t H).
Qed.

End Cells.





Section SummaryTable.

Variable results : SimulationResult.
Variable th : AgreementThresholds.t.
Variable model : SimulationModel.
Variable metric : Metric.
Variable levelIndex : option nat.

Lemma isMuModel_iff : isMuModel model = true <-> model = MuRerun.
Proof. destruct model; vm_compute; intuition discriminate. Qed.

(** X19. The APS-limits table has the rows Minimum, Desirable and Optimal, in
    that order, holding the lookups at the min, des and opt thresholds: one
    cell per row under the analytical-rerun measurement-uncertainty model
    and three (limit, positive bias, negative bias) under the three other
    models.  When the thresholds ascend, a "NO" in a row is a "NO" in the
    same column of every row below it. *)
Theorem renderSummaryTable_rows :
  let columns := if isMuModel model then [Mu] else [Mu; BiasPos; BiasNeg] in
  let cells t := map (getLimit results metric levelIndex t) columns in
  let min := AgreementThresholds.min th in
  let des := AgreementThresholds.des th in
  let opt := AgreementThresholds.opt th in
  renderSummaryTable (Some results) th model metric levelIndex
    = Some [("Minimum", cells min); ("Desirable", cells des);
            ("Optimal", cells opt)] /\
  (isMuModel model = true <-> model = MuRerun) /\
  (forall k,
      JS.leb min des = true ->
      nth_error (cells min) k = Some "NO" ->
      nth_error (cells des) k = Some "NO") /\
  (forall k,
      JS.leb des opt = true ->
      nth_error (cells des) k = Some "NO" ->
      nth_error (cells opt) k = Some "NO").
Proof.
  cbv zeta.
  assert (M : forall t1 t2 k,
             JS.leb t1 t2 = true ->
             nth_error (map (getLimit results metric levelIndex t1)
                            (if isMuModel model then [Mu]
                             else [Mu; BiasPos; BiasNeg])) k = Some "NO" ->
             nth_error (map (getLimit results metric levelIndex t2)
                            (if isMuModel model then [Mu]
                             else [Mu; BiasPos; BiasNeg])) k = Some "NO").
  { intros t1 t2 k Ht H.
    rewrite nth_error_map in *.
    destruct (nth_error _ k) as [type|]; [|discriminate H].
    cbn in *. injection H as H. f_equal.
    apply getLimit_NO_iff_nothing_kept. intros d Hd.
    apply (proj1 (getLimit_NO_iff_nothing_kept results metric levelIndex
                    t1 type) H d).
    exact (kept_mono results metric levelIndex t1 t2 d Ht Hd). }
  split; [|split; [apply isMuModel_iff|split]].
  - unfold renderSummaryTable. cbn [map fst snd].
    destruct (isMuModel model); reflexivity.
  - intros k. apply M.
  - intros k. apply M.
Qed.

End SummaryTable.

Section Markers.

Variable results : SimulationResult.
Variable th : AgreementThresholds.t.
Variable metric : Metric.
Variable levelIndex : option nat.
Variable usePastelColors : bool.




End Markers.


Section MuCurve.

Variable results : SimulationResult.
Variable metric : Metric.
Variable levelIndex : option nat.
Variable threshold : number.

Lemma above_threshold_ys (l : list SimulationPoint) :
  map snd
    (filter (fun p => JS.geb (fst p) threshold)
       (combine (map (metricPct metric levelIndex) l)
                (map (fun d => JS.mul (Fin (mu d)) (Fin 100)) l)))
  = map (fun d => JS.mul (Fin (mu d)) (Fin 100))
        (filter (fun d => JS.geb (metricPct metric levelIndex d) threshold) l).
Proof.
  induction l as [|d l IH]; [reflexivity|].
  cbn [map combine filter fst].
  destruct (JS.geb (metricPct metric levelIndex d) threshold);
    cbn [map snd]; now rewrite IH.
Qed.

Lemma scatter_mu_x_map :
  scatter_mu_x results metric levelIndex
  = map (metricPct metric levelIndex) (mu_data results).
Proof.
  unfold scatter_mu_x. apply map_ext. intro d.
  destruct levelIndex; reflexivity.
Qed.

(** X21. Under the measurement-uncertainty layout the table reads the limit off
    the plotted curve: the two coordinate arrays have one entry per grid
    point, and the limit cell is computed from the [y] values of the
    plotted points whose [x] reaches the threshold - "NO" when there is
    none, otherwise their maximum, cut off at 33 or formatted. *)
Theorem mu_limit_from_curve :
  let x := scatter_mu_x results metric levelIndex in
  let y := scatter_mu_y results in
  let ys :=
    map snd (filter (fun p => JS.geb (fst p) threshold) (combine x y)) in
  List.length x = List.length (mu_data results) /\
  List.length y = List.length (mu_data results) /\
  getLimit results metric levelIndex threshold Mu
    = match ys with
      | [] => "NO"
      | _ :: _ =>
          if JS.gtb (JS.Math_max ys) (Fin 33) then "NA"
          else JS.toFixed 1 (JS.Math_max ys)
      end.
Proof.
  cbv zeta. rewrite scatter_mu_x_map. unfold scatter_mu_y.
  rewrite !length_map. split; [reflexivity|split; [reflexivity|]].
  rewrite above_threshold_ys. unfold getLimit, validPoints.
  destruct (filter _ (mu_data results)); reflexivity.
Qed.

End MuCurve.

Section CombinedTraces.

Context {A : Type}.
Variable cat_of : A -> string.
Variable coord : A -> number.

(** Looking the plotted coordinates up through the index list of a category
    gives the coordinates of the points of that category, in grid order. *)
Lemma lookup_through_indices (cat : string) (pre l : list A) :
  map (fun i => array_get (map coord (pre ++ l)%list) i)
      (filter (fun i => negb (i =? -1)%Z)
         (mapi_from (fun c i => if String.eqb c cat then Z.of_nat i
                                else (-1)%Z)
                    (map cat_of l) (List.length pre)))
  = map (fun d => Some (coord d))
        (filter (fun d => String.eqb (cat_of d) cat) l).
Proof.
  revert pre. induction l as [|d l IH]; intro pre; [reflexivity|].
  cbn [map mapi_from filter].
  assert (Hnext :
             map (fun i => array_get (map coord (pre ++ d :: l)%list) i)
               (filter (fun i => negb (i =? -1)%Z)
                  (mapi_from (fun c i => if String.eqb c cat then Z.of_nat i
                                         else (-1)%Z)
                             (map cat_of l) (S (List.length pre))))
             = map (fun d => Some (coord d))
                   (filter (fun d => String.eqb (cat_of d) cat) l)).
  { specialize (IH (pre ++ [d])%list).
    rewrite <- app_assoc in IH. cbn [List.app] in IH.
    rewrite length_app in IH. cbn [List.length] in IH.
    rewrite Nat.add_1_r in IH. exact IH. }
  destruct (String.eqb (cat_of d) cat).
  - replace (negb (Z.of_nat (List.length pre) =? -1)%Z) with true
      by (symmetry; apply negb_true_iff; apply Z.eqb_neq; lia).
    cbn [map]. f_equal; [|exact Hnext].
    unfold array_get.
    replace (Z.of_nat (List.length pre) <? 0)%Z with false
      by (symmetry; apply Z.ltb_ge; lia).
    rewrite Nat2Z.id, map_app, nth_error_app2 by (rewrite length_map; lia).
    rewrite length_map, Nat.sub_diag. reflexivity.
  - cbn [Z.eqb negb]. exact Hnext.
Qed.

End CombinedTraces.

Section TracesOfGrid.

Variable results : SimulationResult.
Variable th : AgreementThresholds.t.
Variable levelIndex : nat.

Local Abbreviation in_cat := (in_category th levelIndex).

Lemma indicesOf_length (cat : string) :
  List.length (indicesOf cat (categories results th levelIndex))
  = List.length (filter (in_cat cat) (mu_data results)).
Proof.
  pose proof (lookup_through_indices (categoryOf th levelIndex)
                (fun d => JS.mul (Fin (bias d)) (Fin 100)) cat []
                (mu_data results)) as H.
  apply (f_equal (@List.length _)) in H. rewrite !length_map in H.
  exact H.
Qed.

Lemma traceOf_spec (cat : string) :
  traceOf results th levelIndex cat =
  match filter (in_cat cat) (mu_data results) with
  | [] => None
  | pts =>
      Some (mkTrace cat
              (map (fun d => Some (JS.mul (Fin (bias d)) (Fin 100))) pts)
              (map (fun d => Some (JS.mul (Fin (mu d)) (Fin 100))) pts)
              (categoryColors cat))
  end.
Proof.
  unfold traceOf. rewrite indicesOf_length.
  pose proof (lookup_through_indices (categoryOf th levelIndex)
                (fun d => JS.mul (Fin (bias d)) (Fin 100)) cat []
                (mu_data results)) as Hx.
  pose proof (lookup_through_indices (categoryOf th levelIndex)
                (fun d => JS.mul (Fin (mu d)) (Fin 100)) cat []
                (mu_data results)) as Hy.
  cbn [List.app List.length] in Hx, Hy.
  unfold plot_x, plot_y, indicesOf, categories. rewrite Hx, Hy.
  fold (in_category th levelIndex cat).
  destruct (filter (in_cat cat) (mu_data results)); reflexivity.
Qed.

Lemma category_counts (l : list SimulationPoint) :
  (List.length (filter (in_cat "Sensitivity & Specificity") l)
   + List.length (filter (in_cat "Sensitivity") l)
   + List.length (filter (in_cat "Specificity") l)
   + List.length (filter (in_cat "Other") l))%nat
  = List.length l.
Proof.
  induction l as [|d l IH]; [reflexivity|].
  cbn [filter].
  pose proof (categoryOf_cases th levelIndex d) as Hc. cbv zeta in Hc.
  destruct (in_category th levelIndex "Sensitivity & Specificity" d) eqn:E1,
           (in_category th levelIndex "Sensitivity" d) eqn:E2,
           (in_category th levelIndex "Specificity" d) eqn:E3,
           (in_category th levelIndex "Other" d) eqn:E4;
    cbn [List.length]; try lia;
    exfalso; unfold in_category in E1, E2, E3, E4;
    rewrite Hc in E1, E2, E3, E4;
    destruct (JS.geb _ _), (JS.geb _ _); discriminate.
Qed.

Lemma trace_size (cat : string) :
  match traceOf results th levelIndex cat with
  | Some t => List.length (trace_x t)
  | None => 0%nat
  end = List.length (filter (in_cat cat) (mu_data results)).
Proof.
  rewrite traceOf_spec.
  destruct (filter (in_cat cat) (mu_data results)) as [|p l]; [reflexivity|].
  cbn [trace_x]. now rewrite length_map.
Qed.

Lemma in_dropNull {A : Type} (a : A) (l : list (option A)) :
  In a (dropNull l) <-> In (Some a) l.
Proof.
  induction l as [|[x|] l IH]; cbn; [tauto| |].
  - rewrite IH. split; intros [H|H]; auto; left; congruence.
  - rewrite IH. split; [auto|]. intros [H|H]; [discriminate|exact H].
Qed.

Lemma traceOf_Some (cat : string) (t : Trace) :
  traceOf results th levelIndex cat = Some t ->
  trace_cat t = cat /\
  trace_x t
    = map (fun d => Some (JS.mul (Fin (bias d)) (Fin 100)))
          (filter (in_cat cat) (mu_data results)) /\
  trace_y t
    = map (fun d => Some (JS.mul (Fin (mu d)) (Fin 100)))
          (filter (in_cat cat) (mu_data results)) /\
  trace_x t <> [] /\
  trace_color t = categoryColors cat.
Proof.
  rewrite traceOf_spec.
  destruct (filter (in_cat cat) (mu_data results)) as [|p l];
    [discriminate|].
  intro H. injection H as <-. cbn [trace_cat trace_x trace_y trace_color].
  repeat split. discriminate.
Qed.

(** X22. The combined plot draws every grid point exactly once.  Each trace
    belongs to one of the four categories (in the order of
    [uniqueCategories], categories without a point left out), is not empty,
    has its colour, and holds the bias and imprecision percentages of
    exactly the grid points of its category, in grid order and none
    undefined; the sizes of the traces add up to the size of the grid. *)
Theorem traces_partition_grid :
  (forall t, In t (traces results th levelIndex) ->
     In (trace_cat t) uniqueCategories /\
     trace_x t
       = map (fun d => Some (JS.mul (Fin (bias d)) (Fin 100)))
             (filter (in_cat (trace_cat t)) (mu_data results)) /\
     trace_y t
       = map (fun d => Some (JS.mul (Fin (mu d)) (Fin 100)))
             (filter (in_cat (trace_cat t)) (mu_data results)) /\
     trace_x t <> [] /\
     trace_color t <> None) /\
  map trace_cat (traces results th levelIndex)
    = filter (fun cat =>
                negb (List.length (filter (in_cat cat) (mu_data results))
                      =? 0)%nat)
             uniqueCategories /\
  list_sum (map (fun t => List.length (trace_x t))
                (traces results th levelIndex))
    = List.length (mu_data results).
Proof.
  split.
  - intros t Ht. unfold traces in Ht.
    apply in_dropNull, in_map_iff in Ht. destruct Ht as (cat & Ht & Hcat).
    destruct (traceOf_Some cat t Ht) as (Hc & Hx & Hy & Hne & Hcol).
    rewrite Hc. repeat split; try assumption.
    rewrite Hcol. unfold uniqueCategories in Hcat. cbn [In] in Hcat.
    destruct Hcat as [<-|[<-|[<-|[<-|[]]]]]; discriminate.
  - unfold traces, uniqueCategories. cbn [map filter].
    rewrite !traceOf_spec.
    pose proof (category_counts (mu_data results)) as Hsum.
    destruct (filter (in_cat "Sensitivity & Specificity") (mu_data results))
      as [|a1 l1];
    destruct (filter (in_cat "Sensitivity") (mu_data results)) as [|a2 l2];
    destruct (filter (in_cat "Specificity") (mu_data results)) as [|a3 l3];
    destruct (filter (in_cat "Other") (mu_data results)) as [|a4 l4];
      cbn [dropNull map filter List.length Nat.eqb negb list_sum fold_right
           trace_x trace_cat] in *;
      rewrite ?length_map;
      (split; [reflexivity|lia]).
Qed.

End TracesOfGrid.



Section SublevelTabs.

Variable tab : string.

Lemma renderedLevels_from (names : list string) (k idx : nat) :
  In idx (dropNull (mapi_from (fun name idx =>
                                 if String.eqb tab name then Some idx
                                 else None) names k))
  <-> (k <= idx)%nat /\ nth_error names (idx - k) = Some tab.
Proof.
  revert k. induction names as [|n names IH]; intro k; cbn [mapi_from dropNull].
  - split; [intros []|]. intros [_ H]. destruct (idx - k)%nat; discriminate H.
  - destruct (String.eqb tab n) eqn:E; cbn [dropNull In]; rewrite IH.
    + apply String.eqb_eq in E. subst n. split.
      * intros [<-|[Hk H]].
        -- split; [lia|]. now rewrite Nat.sub_diag.
        -- split; [lia|]. replace (idx - k)%nat with (S (idx - S k)) by lia.
           exact H.
      * intros [Hk H]. destruct (Nat.eq_dec k idx) as [->|Hne]; [now left|].
        right. split; [lia|].
        replace (idx - k)%nat with (S (idx - S k)) in H by lia. exact H.
    + apply String.eqb_neq in E. split.
      * intros [Hk H]. split; [lia|].
        replace (idx - k)%nat with (S (idx - S k)) by lia. exact H.
      * intros [Hk H]. destruct (Nat.eq_dec k idx) as [->|Hne].
        -- rewrite Nat.sub_diag in H. cbn in H. congruence.
        -- split; [lia|].
           replace (idx - k)%nat with (S (idx - S k)) in H by lia. exact H.
Qed.

Lemma renderedLevels_absent (names : list string) (k : nat) :
  ~ In tab names ->
  dropNull (mapi_from (fun name idx =>
                         if String.eqb tab name then Some idx else None)
                      names k) = [].
Proof.
  revert k. induction names as [|n names IH]; intros k H; [reflexivity|].
  cbn [mapi_from dropNull].
  destruct (String.eqb tab n) eqn:E.
  - apply String.eqb_eq in E. exfalso. apply H. now left.
  - apply IH. intro Hin. apply H. now right.
Qed.

Lemma renderedLevels_unique (names : list string) (k : nat) :
  NoDup names -> In tab names ->
  exists idx,
    dropNull (mapi_from (fun name idx =>
                           if String.eqb tab name then Some idx else None)
                        names k) = [(k + idx)%nat] /\
    nth_error names idx = Some tab.
Proof.
  intros Hnd. revert k. induction Hnd as [|n names Hn Hnd IH]; intros k Hin.
  - destruct Hin.
  - cbn [mapi_from dropNull]. destruct (String.eqb tab n) eqn:E.
    + apply String.eqb_eq in E. subst n. exists 0%nat.
      rewrite (renderedLevels_absent names (S k) Hn), Nat.add_0_r.
      split; reflexivity.
    + apply String.eqb_neq in E. destruct Hin as [Hin|Hin]; [congruence|].
      destruct (IH (S k) Hin) as (idx & Hr & Hnth).
      exists (S idx). split; [|exact Hnth].
      rewrite Hr. f_equal. lia.
Qed.

(** X24. Which sublevel panels are drawn.  The panel of level [idx] is drawn
    exactly when [names[idx]] is the selected tab; with distinct names and a
    tab among them that is exactly one panel, and with a tab that is not
    among the names (for instance one left over from an earlier run) no
    panel at all.  The initialising effect selects the first name only
    while the tab is empty: it never replaces a tab that is set. *)
Theorem sublevel_panels :
  (forall labels : list string,
      (forall idx, In idx (renderedLevels labels tab)
                   <-> nth_error labels idx = Some tab) /\
      (~ In tab labels -> renderedLevels labels tab = []) /\
      (NoDup labels -> In tab labels ->
       exists idx, renderedLevels labels tab = [idx] /\
                   nth_error labels idx = Some tab)) /\
  (forall results : SimulationResult,
      (tab <> "" -> initSublevelTab (Some results) tab = tab) /\
      (tab = "" ->
       initSublevelTab (Some results) tab
       = match names results with first :: _ => first | [] => "" end)).
Proof.
  split.
  - intro labels. unfold renderedLevels. split; [|split].
    + intro idx. rewrite renderedLevels_from, Nat.sub_0_r.
      split; [tauto|]. intro H. split; [lia|exact H].
    + apply renderedLevels_absent.
    + intros Hnd Hin.
      destruct (renderedLevels_unique labels 0 Hnd Hin) as (idx & Hr & Hnth).
      exists idx. split; assumption.
  - intros results. unfold initSublevelTab. split.
    + intro Hne. apply String.eqb_neq in Hne. rewrite Hne.
      now destruct (names results).
    + intros ->. now destruct (names results).
Qed.

End SublevelTabs.

Lemma sublevel_panels_witness :
  renderedLevels ["5"; "10"] "7" = [] /\
  exists idx, renderedLevels ["5"; "10"] "10" = [idx] /\
              nth_error ["5"; "10"] idx = Some "10".
Proof.
  pose proof (proj1 (sublevel_panels "7") ["5"; "10"]) as (_ & H7 & _).
  pose proof (proj1 (sublevel_panels "10") ["5"; "10"]) as (_ & _ & H10).
  split.
  - apply H7. intros [H|[H|[]]]; discriminate H.
  - apply H10.
    + repeat constructor; cbn; intuition discriminate.
    + right; now left.
Defined.

(** X25. The sample size shown in the summary is the stored one only when that
    is a non-zero number; otherwise it is the number of loaded values (0
    when no data are loaded).  So after the sample-size field has been
    cleared, the configuration carries [sample_size = 0] while the summary
    shows the size of the whole dataset. *)
Theorem summary_sample_size :
  (forall (v : number) (data : option (list Q)),
      JS.truthy v = true -> summarySampleSize (Some v) data = v) /\
  (forall (stored : option number) (data : list Q),
      stored = None \/ (exists v, stored = Some v /\ JS.truthy v = false) ->
      summarySampleSize stored (Some data) = JS.of_nat (List.length data)) /\
  (forall (dataCount : option nat) (value : string) (state prev : AppState)
          (data : list Q),
      JS.parseInt value = NaN ->
      let s := onChange_sampleSize dataCount value state prev in
      SimulationConfig.sample_size (mkConfig s data) = Some (Fin 0) /\
      summarySampleSize (sampleSize s) (Some data)
        = JS.of_nat (List.length data)).
Proof.
  assert (L : forall data : list Q,
             JS.or_else (JS.of_nat (List.length data)) (Fin 0)
             = JS.of_nat (List.length data)).
  { intro data. unfold JS.or_else.
    destruct (JS.truthy (JS.of_nat (List.length data))) eqn:E;
      [reflexivity|].
    destruct data; [reflexivity|discriminate E]. }
  split; [|split].
  - intros v data Hv. unfold summarySampleSize. rewrite Hv.
    unfold JS.or_else. now rewrite Hv.
  - intros stored data [-> | (v & -> & Hv)]; unfold summarySampleSize;
      [|rewrite Hv]; cbn [option_map]; apply L.
  - intros dataCount value state prev data Hp s. subst s.
    unfold onChange_sampleSize. rewrite Hp. cbn [JS.isNaN negb].
    split; [reflexivity|].
    cbn [sampleSize set_sampleSize]. unfold summarySampleSize.
    cbn [JS.truthy JS.Qis_zero Qnum Z.eqb negb option_map]. apply L.
Qed.

Lemma summary_sample_size_witness :
  SimulationConfig.sample_size
    (mkConfig (onChange_sampleSize (Some 3%nat) "" loadedState loadedState)
              [1; 2; 3]) = Some (Fin 0) /\
  summarySampleSize
    (sampleSize (onChange_sampleSize (Some 3%nat) "" loadedState loadedState))
    (Some [1; 2; 3]) = JS.of_nat 3.
Proof.
  exact (proj2 (proj2 summary_sample_size) (Some 3%nat) "" loadedState
               loadedState [1; 2; 3] eq_refl).
Defined.
